(** * prefer-t-regex: a shallow embedding of [src/rules/prefer-t-regex.js]

    The rule visits call expressions of an AVA test file and proposes to
    rewrite boolean and equality assertions over regular-expression tests
    into [t.regex] / [t.notRegex].  This development embeds the rule's
    functions ([findReference], [findRootReference], [isRegExp],
    [booleanHandler], [equalityHandler] and the [CallExpression] visitor)
    and states the properties of the specification over them. *)

From Stdlib Require Import String List Bool Arith Lia.
From Stdlib Require Import Relations Transitive_Closure.
Import ListNotations.
Local Open Scope string_scope.

(** ** ESTree nodes, as far as the rule reads them *)

(** A node's source range; it also stands for the node's identity. *)
Definition range : Type := (nat * nat)%type.

Definition range_eqb (a b : range) : bool :=
  Nat.eqb (fst a) (fst b) && Nat.eqb (snd a) (snd b).

(** The object held by the [regex] field of a regular-expression literal.
    [owner] is the range of the literal that carries the object: two such
    objects are the same JavaScript object exactly when they belong to the
    same literal node. *)
Record RegexObject : Type := mkRegex {
  owner : range;
  pattern : string;
  flags : string
}.

(** The variants of an ESTree [Literal]. *)
Inductive LiteralKind : Type :=
| BooleanLiteral (value : bool)
| NullLiteral
| NumericLiteral (text : string)
| StringLiteral (text : string)
| BigIntLiteral (text : string)
| RegExpLiteral (pat flg : string).

(** Expression kinds whose fields the rule never reads; only their
    [type] matters, and it differs from the five types the rule tests. *)
Inductive OtherKind : Type :=
| ThisExpression | ArrayExpression | ObjectExpression | FunctionExpression
| ArrowFunctionExpression | UnaryExpression | UpdateExpression
| BinaryExpression | AssignmentExpression | LogicalExpression
| ConditionalExpression | SequenceExpression | TemplateLiteral
| TaggedTemplateExpression | ClassExpression | AwaitExpression
| YieldExpression | ImportExpression | ChainExpression | SpreadElement
| Super.

#[local] Set Warnings "-register-all".
Inductive Node : Type :=
| Identifier (loc : range) (name : string)
| Literal (loc : range) (lit : LiteralKind)
| CallExpression (loc : range) (callee : Node) (arguments : list Node)
| NewExpression (loc : range) (callee : Node) (arguments : list Node)
| MemberExpression (loc : range) (object property : Node) (computed : bool)
| MetaProperty (loc : range) (meta property : Node)
| OtherNode (loc : range) (kind : OtherKind)
| PlainObject.
(** [PlainObject] is the empty object [{}] that [booleanHandler] takes as
    the initial value of [lookup] and [variable]: it has no field at all. *)

(** Field reads; [None] is JavaScript's [undefined]. *)

Definition node_name (n : Node) : option string :=
  match n with
  | Identifier _ name => Some name
  | _ => None
  end.

Definition other_type (k : OtherKind) : string :=
  match k with
  | ThisExpression => "ThisExpression"
  | ArrayExpression => "ArrayExpression"
  | ObjectExpression => "ObjectExpression"
  | FunctionExpression => "FunctionExpression"
  | ArrowFunctionExpression => "ArrowFunctionExpression"
  | UnaryExpression => "UnaryExpression"
  | UpdateExpression => "UpdateExpression"
  | BinaryExpression => "BinaryExpression"
  | AssignmentExpression => "AssignmentExpression"
  | LogicalExpression => "LogicalExpression"
  | ConditionalExpression => "ConditionalExpression"
  | SequenceExpression => "SequenceExpression"
  | TemplateLiteral => "TemplateLiteral"
  | TaggedTemplateExpression => "TaggedTemplateExpression"
  | ClassExpression => "ClassExpression"
  | AwaitExpression => "AwaitExpression"
  | YieldExpression => "YieldExpression"
  | ImportExpression => "ImportExpression"
  | ChainExpression => "ChainExpression"
  | SpreadElement => "SpreadElement"
  | Super => "Super"
  end.

Definition node_type (n : Node) : option string :=
  match n with
  | Identifier _ _ => Some "Identifier"
  | Literal _ _ => Some "Literal"
  | CallExpression _ _ _ => Some "CallExpression"
  | NewExpression _ _ _ => Some "NewExpression"
  | MemberExpression _ _ _ _ => Some "MemberExpression"
  | MetaProperty _ _ _ => Some "MetaProperty"
  | OtherNode _ kind => Some (other_type kind)
  | PlainObject => None
  end.

Definition literal_raw (lit : LiteralKind) : string :=
  match lit with
  | BooleanLiteral true => "true"
  | BooleanLiteral false => "false"
  | NullLiteral => "null"
  | NumericLiteral text => text
  | StringLiteral text => text
  | BigIntLiteral text => text
  | RegExpLiteral pat flg => "/" ++ pat ++ "/" ++ flg
  end.

Definition node_raw (n : Node) : option string :=
  match n with
  | Literal _ lit => Some (literal_raw lit)
  | _ => None
  end.

Definition node_regex (n : Node) : option RegexObject :=
  match n with
  | Literal loc (RegExpLiteral pat flg) => Some (mkRegex loc pat flg)
  | _ => None
  end.

Definition node_callee (n : Node) : option Node :=
  match n with
  | CallExpression _ callee _ | NewExpression _ callee _ => Some callee
  | _ => None
  end.

Definition node_arguments (n : Node) : option (list Node) :=
  match n with
  | CallExpression _ _ arguments | NewExpression _ _ arguments => Some arguments
  | _ => None
  end.

Definition node_object (n : Node) : option Node :=
  match n with
  | MemberExpression _ object _ _ => Some object
  | _ => None
  end.

Definition node_property (n : Node) : option Node :=
  match n with
  | MemberExpression _ _ property _ => Some property
  | MetaProperty _ _ property => Some property
  | _ => None
  end.

(** [a === b] on two values that are a string or [undefined]. *)
Definition same_name (a b : option string) : bool :=
  match a, b with
  | Some x, Some y => String.eqb x y
  | None, None => true
  | _, _ => false
  end.

(** [names.includes(a)] / [names.has(a)]. *)
Definition includes (names : list string) (a : option string) : bool :=
  existsb (fun s => same_name (Some s) a) names.

(** ** Scope analysis, as the host provides it *)

(** The node of a definition: a variable declarator with its optional
    initializer, or any other declaring node (function, class, parameter,
    import, catch clause), none of which has an [init] field. *)
Inductive DefinitionNode : Type :=
| VariableDeclarator (id : Node) (init : option Node)
| OtherDeclaration.

Definition def_init (d : DefinitionNode) : option Node :=
  match d with
  | VariableDeclarator _ init => init
  | OtherDeclaration => None
  end.

Record Definition_ : Type := { def_node : DefinitionNode }.

Record ScopeVariable : Type := { defs : list Definition_ }.

Record Reference : Type := {
  identifier : Node;
  resolved : option ScopeVariable
}.

Record Scope : Type := { references : list Reference }.

(** The part of the rule context that the rule calls:
    [sourceCode.getScope(node)] and [sourceCode.getText(node)]
    ([getText] of [undefined] is the whole source text). *)
Record SourceCode : Type := {
  getScope : Node -> Scope;
  getText : option Node -> string
}.

(** ** Results of running the rule's functions *)

Inductive JSError : Type := TypeError.

(** A call either returns, throws, or is cut off because it nested more
    recursive calls than the fuel allows. *)
Inductive Outcome (A : Type) : Type :=
| Returns (a : A)
| Throws (e : JSError)
| OutOfFuel.
Arguments Returns {A} a.
Arguments Throws {A} e.
Arguments OutOfFuel {A}.

Definition bind {A B : Type} (m : Outcome A) (k : A -> Outcome B) : Outcome B :=
  match m with
  | Returns a => k a
  | Throws e => Throws e
  | OutOfFuel => OutOfFuel
  end.

Notation "x <- m ;; k" := (bind m (fun x => k))
  (at level 61, m at next level, right associativity).

Definition outcome_map {A B : Type} (f : A -> B) (m : Outcome A) : Outcome B :=
  x <- m ;; Returns (f x).

(** Reading a field of a value that may be [undefined]: [o.field]. *)
Definition read {A B : Type} (field : A -> option B) (o : option A) : Outcome (option B) :=
  match o with
  | Some a => Returns (field a)
  | None => Throws TypeError
  end.

(** [array[i]]. *)
Definition item (i : nat) (array : list Node) : option Node := nth_error array i.

(** [array.at(-1)]. *)
Fixpoint at_last {A : Type} (l : list A) : option A :=
  match l with
  | [] => None
  | [x] => Some x
  | _ :: rest => at_last rest
  end.

(** The values [isRegExp] returns: a boolean, or the [regex] object of
    the literal the lookup traces to. *)
Inductive JSValue : Type :=
| JSBoolean (b : bool)
| JSRegex (r : RegexObject).

Definition truthy (v : JSValue) : bool :=
  match v with
  | JSBoolean b => b
  | JSRegex _ => true
  end.

(** [a === b]: booleans by value, objects by identity. *)
Definition strict_equal (a b : JSValue) : bool :=
  match a, b with
  | JSBoolean x, JSBoolean y => Bool.eqb x y
  | JSRegex x, JSRegex y => range_eqb (owner x) (owner y)
  | _, _ => false
  end.

(** One text edit of a fix: [fixer.replaceText(target, text)]. *)
Inductive Edit : Type :=
| replaceText (target : Node) (text : string).

(** [fixer.replaceText] reads the range of its target. *)
Definition fixer_replaceText (target : option Node) (text : string) : Outcome Edit :=
  match target with
  | Some t => Returns (replaceText t text)
  | None => Throws TypeError
  end.

(** A call of [context.report]: [finding_fix] is what the fix function
    evaluates to when the host calls it with its fixer. *)
Record Finding : Type := {
  finding_node : Node;
  message : string;
  finding_fix : Outcome (list Edit)
}.

Definition booleanTests : list string := ["true"; "false"; "truthy"; "falsy"].

Definition equalityTests : list string := ["is"; "deepEqual"].

Definition prefer_message (assertion : string) : string :=
  "Prefer using the `t." ++ assertion ++ "()` assertion.".

(** ** The rule *)

Section Rule.

Variable sourceCode : SourceCode.

(** Find the latest reference to the given identifier's name. *)
Definition findReference (node : Node) : option DefinitionNode :=
  let reference :=
    find (fun reference => same_name (node_name (identifier reference)) (node_name node))
         (references (getScope sourceCode node)) in
  match reference with
  | Some reference =>
      match resolved reference with
      | Some variable =>
          let definitions := defs variable in
          match definitions with
          | [] => None
          | _ => option_map def_node (at_last definitions)
          end
      | None => None
      end
  | None => None
  end.

(** Recursively find the origin node of the given node.  Every nested
    call spends one unit of fuel. *)
Fixpoint findRootReference (fuel : nat) (node : option Node) : Outcome (option Node) :=
  let recurse next :=
    match fuel with
    | O => OutOfFuel
    | S fuel' => findRootReference fuel' next
    end in
  match node with
  | None => Returns None
  | Some n =>
      match n with
      | Identifier _ _ =>
          match findReference n with
          | Some reference =>
              match def_init reference with
              | Some init => recurse (Some init)
              | None => Returns (Some n)
              end
          | None => Returns (Some n)
          end
      | CallExpression _ callee _ | NewExpression _ callee _ => recurse (Some callee)
      | MemberExpression _ object _ _ => recurse (Some object)
      | _ => Returns (Some n)
      end
  end.

(** Determine if the given node is a regex expression. *)
Definition isRegExp (fuel : nat) (lookup : option Node) : Outcome JSValue :=
  match lookup with
  | None => Returns (JSBoolean false)
  | Some l =>
      match node_regex l with
      | Some _ => Returns (JSBoolean true)
      | None =>
          reference <- findRootReference fuel lookup ;;
          match reference with
          | None => Returns (JSBoolean false)
          | Some reference =>
              match node_regex reference with
              | Some r => Returns (JSRegex r)
              | None => Returns (JSBoolean (same_name (node_name reference) (Some "RegExp")))
              end
          end
      end
  end.

(** The origin tracer as the specification words it (section 4.2), kind
    by kind; [traceOrigin node origin] reads "tracing [node] gives
    [origin]".  It is compared with [findRootReference] below. *)
Definition traced_kind (n : Node) : bool :=
  includes ["Identifier"; "CallExpression"; "NewExpression"; "MemberExpression"]
           (node_type n).

Inductive traceOrigin : Node -> Node -> Prop :=
| trace_initializer loc name definition init origin :
    findReference (Identifier loc name) = Some definition ->
    def_init definition = Some init ->
    traceOrigin init origin ->
    traceOrigin (Identifier loc name) origin
| trace_no_initializer loc name definition :
    findReference (Identifier loc name) = Some definition ->
    def_init definition = None ->
    traceOrigin (Identifier loc name) (Identifier loc name)
| trace_unresolved loc name :
    findReference (Identifier loc name) = None ->
    traceOrigin (Identifier loc name) (Identifier loc name)
| trace_call loc callee arguments origin :
    traceOrigin callee origin ->
    traceOrigin (CallExpression loc callee arguments) origin
| trace_construction loc callee arguments origin :
    traceOrigin callee origin ->
    traceOrigin (NewExpression loc callee arguments) origin
| trace_member loc object property computed origin :
    traceOrigin object origin ->
    traceOrigin (MemberExpression loc object property computed) origin
| trace_other node :
    traced_kind node = false ->
    traceOrigin node node.

(** [nested_call next node]: on [node], [findRootReference] calls
    itself on [next]. *)
Inductive nested_call : Node -> Node -> Prop :=
| nested_initializer loc name definition init :
    findReference (Identifier loc name) = Some definition ->
    def_init definition = Some init ->
    nested_call init (Identifier loc name)
| nested_callee loc callee arguments :
    nested_call callee (CallExpression loc callee arguments)
| nested_constructor loc callee arguments :
    nested_call callee (NewExpression loc callee arguments)
| nested_object loc object property computed :
    nested_call object (MemberExpression loc object property computed).

(** The handler of [t.true], [t.false], [t.truthy] and [t.falsy]. *)
Definition booleanHandler (fuel : nat) (node : Node) : Outcome (list Finding) :=
  arguments <- read node_arguments (Some node) ;;
  firstArgument <- read (item 0) arguments ;;
  match firstArgument with
  | None => Returns []
  | Some first =>
      let isFunctionCall := same_name (node_type first) (Some "CallExpression") in
      if negb isFunctionCall then Returns [] else
      callee <- read node_callee firstArgument ;;
      property <- read node_property callee ;;
      match property with
      | None => Returns []
      | Some _ =>
          name <- read node_name property ;;
          innerArguments <- read node_arguments firstArgument ;;
          roles <-
            (if same_name name (Some "test") then
               (* Represent: `lookup.test(variable)` *)
               l <- read node_object callee ;;
               v <- read (item 0) innerArguments ;;
               Returns (l, v)
             else if includes ["search"; "match"] name then
               (* Represent: `variable.match(lookup)` *)
               l <- read (item 0) innerArguments ;;
               v <- read node_object callee ;;
               Returns (l, v)
             else Returns (Some PlainObject, Some PlainObject)) ;;
          let lookup := fst roles in
          let variable := snd roles in
          verdict <- isRegExp fuel lookup ;;
          if negb (truthy verdict) then Returns [] else
          nodeCallee <- read node_callee (Some node) ;;
          nodeProperty <- read node_property nodeCallee ;;
          asserted <- read node_name nodeProperty ;;
          let assertion :=
            if includes ["true"; "truthy"] asserted then "regex" else "notRegex" in
          let fixEdits :=
            e1 <- fixer_replaceText nodeProperty assertion ;;
            e2 <- fixer_replaceText firstArgument
                    (getText sourceCode variable ++ ", " ++ getText sourceCode lookup) ;;
            Returns [e1; e2] in
          Returns [ {| finding_node := node;
                       message := prefer_message assertion;
                       finding_fix := fixEdits |} ]
      end
  end.

(** The handler of [t.is] and [t.deepEqual]. *)
Definition equalityHandler (fuel : nat) (node : Node) : Outcome (list Finding) :=
  arguments <- read node_arguments (Some node) ;;
  firstArgument <- read (item 0) arguments ;;
  secondArgument <- read (item 1) arguments ;;
  firstArgumentIsRegex <- isRegExp fuel firstArgument ;;
  secondArgumentIsRegex <- isRegExp fuel secondArgument ;;
  (* If both are regex, or neither are, the expression is ok. *)
  if strict_equal firstArgumentIsRegex secondArgumentIsRegex then Returns [] else
  let matchee := if truthy secondArgumentIsRegex then firstArgument else secondArgument in
  match matchee with
  | None => Returns []
  | Some _ =>
      let regex := if truthy secondArgumentIsRegex then secondArgument else firstArgument in
      let booleanFixer (assertion : string) : Outcome (list Edit) :=
        nodeCallee <- read node_callee (Some node) ;;
        nodeProperty <- read node_property nodeCallee ;;
        e1 <- fixer_replaceText nodeProperty assertion ;;
        regexArguments <- read node_arguments regex ;;
        tested <- read (item 0) regexArguments ;;
        e2 <- fixer_replaceText firstArgument (getText sourceCode tested) ;;
        regexCallee <- read node_callee regex ;;
        regexObject <- read node_object regexCallee ;;
        e3 <- fixer_replaceText secondArgument (getText sourceCode regexObject) ;;
        Returns [e1; e2; e3] in
      let report (assertion : string) : Outcome (list Finding) :=
        Returns [ {| finding_node := node;
                     message := prefer_message assertion;
                     finding_fix := booleanFixer assertion |} ] in
      (* Only fix a statically verifiable equality. *)
      match regex with
      | None => Returns []
      | Some _ =>
          matcheeType <- read node_type matchee ;;
          if same_name matcheeType (Some "Literal") then
            raw <- read node_raw matchee ;;
            if same_name raw (Some "true") then report "regex"
            else if same_name raw (Some "false") then report "notRegex"
            else Returns []
          else Returns []
      end
  end.

(** The helpers of the plugin that the visitor consults: the two gates
    of [visitIf] and [util.getNameOfRootNodeObject]. *)
Variable isInTestFile isInTestNode : Node -> bool.
Variable getNameOfRootNodeObject : Node -> option string.

(** The [CallExpression] visitor. *)
Definition onCallExpression (fuel : nat) (node : Node) : Outcome (list Finding) :=
  if negb (isInTestFile node && isInTestNode node) then Returns [] else
  match node_callee node with
  | None => Returns []
  | Some callee =>
      match node_property callee with
      | None => Returns []
      | Some property =>
          let isAssertion :=
            same_name (node_type callee) (Some "MemberExpression")
            && same_name (getNameOfRootNodeObject callee) (Some "t") in
          let isBooleanAssertion :=
            isAssertion && includes booleanTests (node_name property) in
          let isEqualityAssertion :=
            isAssertion && includes equalityTests (node_name property) in
          if isBooleanAssertion then booleanHandler fuel node
          else if isEqualityAssertion then equalityHandler fuel node
          else Returns []
      end
  end.

End Rule.

Arguments traceOrigin sourceCode _ _ : clear implicits.
Arguments nested_call sourceCode _ _ : clear implicits.

(** ** The classifier as the specification words it (section 4.3) *)

Definition carries_regex_syntax (n : Node) : bool :=
  match n with
  | Literal _ (RegExpLiteral _ _) => true
  | _ => false
  end.

Definition is_identifier_named (wanted : string) (n : Node) : bool :=
  match n with
  | Identifier _ name => String.eqb name wanted
  | _ => false
  end.

Definition origin_is_regex (origin : option Node) : bool :=
  match origin with
  | None => false
  | Some o => carries_regex_syntax o || is_identifier_named "RegExp" o
  end.

(** The assertion each boolean assertion is rewritten to (section 4.4). *)
Definition assertion_table : list (string * string) :=
  [("true", "regex"); ("truthy", "regex"); ("false", "notRegex"); ("falsy", "notRegex")].

(** [object.method(arguments)], the shape of the calls the rule matches. *)
Definition method_call (loc calleeLoc methodLoc : range) (object : Node)
    (method : string) (arguments : list Node) : Node :=
  CallExpression loc
    (MemberExpression calleeLoc object (Identifier methodLoc method) false)
    arguments.

(** ** A host for the examples

    Source text is cut out by range, as the host's [getText] does; the
    scope of every node of a one-function example is that function's
    scope. *)

Definition node_loc (n : Node) : option range :=
  match n with
  | Identifier loc _ | Literal loc _ | CallExpression loc _ _
  | NewExpression loc _ _ | MemberExpression loc _ _ _
  | MetaProperty loc _ _ | OtherNode loc _ => Some loc
  | PlainObject => None
  end.

Definition slice (text : string) (r : range) : string :=
  substring (fst r) (snd r - fst r) text.

Definition textOf (text : string) (n : option Node) : string :=
  match n with
  | Some n' =>
      match node_loc n' with
      | Some r => slice text r
      | None => text
      end
  | None => text
  end.

Definition hostOf (text : string) (scope : Scope) : SourceCode :=
  {| getScope := fun _ => scope; getText := textOf text |}.

Definition inTest (_ : Node) : bool := true.

(** The name of the identifier a member chain starts from. *)
Fixpoint rootObjectName (n : Node) : option string :=
  match n with
  | MemberExpression _ object _ _ =>
      match object with
      | MemberExpression _ _ _ _ => rootObjectName object
      | _ => node_name object
      end
  | _ => None
  end.

Definition unresolved (n : Node) : Reference :=
  {| identifier := n; resolved := None |}.

Definition declared (n : Node) (declarators : list DefinitionNode) : Reference :=
  {| identifier := n;
     resolved := Some {| defs := map (fun d => {| def_node := d |}) declarators |} |}.

Definition t_member (loc : range) (assertion : Node) : Node :=
  MemberExpression loc (Identifier (fst loc, S (fst loc)) "t") assertion false.

(** [const re = /ab/; t.true(re.test(x));] *)
Module Aliased.
Definition text : string := "const re = /ab/; t.true(re.test(x));".
Definition literal : Node := Literal (11, 15) (RegExpLiteral "ab" "").
Definition declarator : DefinitionNode :=
  VariableDeclarator (Identifier (6, 8) "re") (Some literal).
Definition re : Node := Identifier (24, 26) "re".
Definition x : Node := Identifier (32, 33) "x".
Definition inner : Node :=
  CallExpression (24, 34) (MemberExpression (24, 31) re (Identifier (27, 31) "test") false) [x].
Definition asserted : Node := Identifier (19, 23) "true".
Definition call : Node := CallExpression (17, 35) (t_member (17, 23) asserted) [inner].
Definition scope : Scope :=
  {| references :=
       [ declared (Identifier (6, 8) "re") [declarator];
         unresolved (Identifier (17, 18) "t");
         declared re [declarator];
         unresolved x ] |}.
Definition host : SourceCode := hostOf text scope.
End Aliased.

(** [t.falsy(s.search(/a+/));] *)
Module Searched.
Definition text : string := "t.falsy(s.search(/a+/));".
Definition literal : Node := Literal (17, 21) (RegExpLiteral "a+" "").
Definition subject : Node := Identifier (8, 9) "s".
Definition inner : Node :=
  CallExpression (8, 22)
    (MemberExpression (8, 16) subject (Identifier (10, 16) "search") false) [literal].
Definition asserted : Node := Identifier (2, 7) "falsy".
Definition call : Node := CallExpression (0, 23) (t_member (0, 7) asserted) [inner].
Definition scope : Scope :=
  {| references := [unresolved (Identifier (0, 1) "t"); unresolved subject] |}.
Definition host : SourceCode := hostOf text scope.
End Searched.

(** [t.true(/x/.exec(s));] *)
Module OtherMethod.
Definition text : string := "t.true(/x/.exec(s));".
Definition literal : Node := Literal (7, 10) (RegExpLiteral "x" "").
Definition method : Node := Identifier (11, 15) "exec".
Definition inner : Node :=
  CallExpression (7, 18) (MemberExpression (7, 15) literal method false)
    [Identifier (16, 17) "s"].
Definition asserted : Node := Identifier (2, 6) "true".
Definition call : Node := CallExpression (0, 19) (t_member (0, 6) asserted) [inner].
Definition scope : Scope :=
  {| references := [unresolved (Identifier (0, 1) "t"); unresolved (Identifier (16, 17) "s")] |}.
Definition host : SourceCode := hostOf text scope.
End OtherMethod.

(** [t.is(/a/.test(s), /b/.test(s));]: both sides are regex tests. *)
Module BothRegex.
Definition text : string := "t.is(/a/.test(s), /b/.test(s));".
Definition left : Node :=
  CallExpression (5, 16)
    (MemberExpression (5, 13) (Literal (5, 8) (RegExpLiteral "a" ""))
       (Identifier (9, 13) "test") false)
    [Identifier (14, 15) "s"].
Definition right : Node :=
  CallExpression (18, 29)
    (MemberExpression (18, 26) (Literal (18, 21) (RegExpLiteral "b" ""))
       (Identifier (22, 26) "test") false)
    [Identifier (27, 28) "s"].
Definition asserted : Node := Identifier (2, 4) "is".
Definition call : Node := CallExpression (0, 30) (t_member (0, 4) asserted) [left; right].
Definition scope : Scope :=
  {| references :=
       [ unresolved (Identifier (0, 1) "t");
         unresolved (Identifier (14, 15) "s");
         unresolved (Identifier (27, 28) "s") ] |}.
Definition host : SourceCode := hostOf text scope.
End BothRegex.

(** [var r = /a/; var r = 's'; t.true(r.test(x));] *)
Module Redeclared.
Definition text : string := "var r = /a/; var r = 's'; t.true(r.test(x));".
Definition first : DefinitionNode :=
  VariableDeclarator (Identifier (4, 5) "r") (Some (Literal (8, 11) (RegExpLiteral "a" ""))).
Definition second : DefinitionNode :=
  VariableDeclarator (Identifier (17, 18) "r") (Some (Literal (21, 24) (StringLiteral "'s'"))).
Definition r : Node := Identifier (33, 34) "r".
Definition x : Node := Identifier (40, 41) "x".
Definition inner : Node :=
  CallExpression (33, 42) (MemberExpression (33, 39) r (Identifier (35, 39) "test") false) [x].
Definition asserted : Node := Identifier (28, 32) "true".
Definition call : Node := CallExpression (26, 43) (t_member (26, 32) asserted) [inner].
Definition variable : ScopeVariable :=
  {| defs := [ {| def_node := first |}; {| def_node := second |} ] |}.
Definition reference : Reference :=
  {| identifier := Identifier (4, 5) "r"; resolved := Some variable |}.
Definition scope : Scope :=
  {| references :=
       [ reference;
         {| identifier := Identifier (17, 18) "r"; resolved := Some variable |};
         unresolved (Identifier (26, 27) "t");
         {| identifier := r; resolved := Some variable |};
         unresolved x ] |}.
Definition host : SourceCode := hostOf text scope.
End Redeclared.

(** [var x = x; t.true(x.test('a'));] *)
Module SelfInitialized.
Definition text : string := "var x = x; t.true(x.test('a'));".
Definition initializer : Node := Identifier (8, 9) "x".
Definition declarator : DefinitionNode :=
  VariableDeclarator (Identifier (4, 5) "x") (Some initializer).
Definition x : Node := Identifier (18, 19) "x".
Definition inner : Node :=
  CallExpression (18, 29) (MemberExpression (18, 24) x (Identifier (20, 24) "test") false)
    [Literal (25, 28) (StringLiteral "'a'")].
Definition asserted : Node := Identifier (13, 17) "true".
Definition call : Node := CallExpression (11, 30) (t_member (11, 17) asserted) [inner].
Definition scope : Scope :=
  {| references :=
       [ declared (Identifier (4, 5) "x") [declarator];
         declared initializer [declarator];
         unresolved (Identifier (11, 12) "t");
         declared x [declarator] ] |}.
Definition host : SourceCode := hostOf text scope.
End SelfInitialized.

(** [t.is(/a/.test(s), false);] *)
Module TestedEquality.
Definition text : string := "t.is(/a/.test(s), false);".
Definition literal : Node := Literal (5, 8) (RegExpLiteral "a" "").
Definition subject : Node := Identifier (14, 15) "s".
Definition tested : Node := method_call (5, 16) (5, 13) (9, 13) literal "test" [subject].
Definition matchee : Node := Literal (18, 23) (BooleanLiteral false).
Definition asserted : Node := Identifier (2, 4) "is".
Definition call : Node := CallExpression (0, 24) (t_member (0, 4) asserted) [tested; matchee].
Definition scope : Scope :=
  {| references := [unresolved (Identifier (0, 1) "t"); unresolved subject] |}.
Definition host : SourceCode := hostOf text scope.
End TestedEquality.

(** [t.is(true, /a/.test(s));] *)
Module LiteralFirst.
Definition text : string := "t.is(true, /a/.test(s));".
Definition literal : Node := Literal (11, 14) (RegExpLiteral "a" "").
Definition subject : Node := Identifier (20, 21) "s".
Definition tested : Node := method_call (11, 22) (11, 19) (15, 19) literal "test" [subject].
Definition matchee : Node := Literal (5, 9) (BooleanLiteral true).
Definition asserted : Node := Identifier (2, 4) "is".
Definition call : Node := CallExpression (0, 23) (t_member (0, 4) asserted) [matchee; tested].
Definition scope : Scope :=
  {| references := [unresolved (Identifier (0, 1) "t"); unresolved subject] |}.
Definition host : SourceCode := hostOf text scope.
End LiteralFirst.

(** [t.is(/a/, true);] *)
Module PlainRegexEquality.
Definition text : string := "t.is(/a/, true);".
Definition literal : Node := Literal (5, 8) (RegExpLiteral "a" "").
Definition matchee : Node := Literal (10, 14) (BooleanLiteral true).
Definition asserted : Node := Identifier (2, 4) "is".
Definition call : Node := CallExpression (0, 15) (t_member (0, 4) asserted) [literal; matchee].
Definition scope : Scope := {| references := [unresolved (Identifier (0, 1) "t")] |}.
Definition host : SourceCode := hostOf text scope.
End PlainRegexEquality.

(** [t.is(/a/g.global, true);] *)
Module FlagEquality.
Definition text : string := "t.is(/a/g.global, true);".
Definition literal : Node := Literal (5, 9) (RegExpLiteral "a" "g").
Definition flag : Node :=
  MemberExpression (5, 16) literal (Identifier (10, 16) "global") false.
Definition matchee : Node := Literal (18, 22) (BooleanLiteral true).
Definition asserted : Node := Identifier (2, 4) "is".
Definition call : Node := CallExpression (0, 23) (t_member (0, 4) asserted) [flag; matchee].
Definition scope : Scope := {| references := [unresolved (Identifier (0, 1) "t")] |}.
Definition host : SourceCode := hostOf text scope.
End FlagEquality.

(** [t.true(/x/.test());] *)
Module MissingArgument.
Definition text : string := "t.true(/x/.test());".
Definition literal : Node := Literal (7, 10) (RegExpLiteral "x" "").
Definition inner : Node :=
  CallExpression (7, 17) (MemberExpression (7, 15) literal (Identifier (11, 15) "test") false) [].
Definition asserted : Node := Identifier (2, 6) "true".
Definition call : Node := CallExpression (0, 18) (t_member (0, 6) asserted) [inner].
Definition scope : Scope := {| references := [unresolved (Identifier (0, 1) "t")] |}.
Definition host : SourceCode := hostOf text scope.
End MissingArgument.

(** ** Tracing: fuel, results and the specification's algorithm *)

Section Tracing.

Variable sourceCode : SourceCode.

Lemma findRootReference_unfold (fuel : nat) (node : option Node) :
  findRootReference sourceCode fuel node =
  let recurse next :=
    match fuel with
    | O => OutOfFuel
    | S fuel' => findRootReference sourceCode fuel' next
    end in
  match node with
  | None => Returns None
  | Some n =>
      match n with
      | Identifier _ _ =>
          match findReference sourceCode n with
          | Some reference =>
              match def_init reference with
              | Some init => recurse (Some init)
              | None => Returns (Some n)
              end
          | None => Returns (Some n)
          end
      | CallExpression _ callee _ | NewExpression _ callee _ => recurse (Some callee)
      | MemberExpression _ object _ _ => recurse (Some object)
      | _ => Returns (Some n)
      end
  end.
Proof. destruct fuel; reflexivity. Qed.


(** Tracing reads fields of present nodes only: it never throws. *)
Lemma findRootReference_never_throws (fuel : nat) :
  forall node e, findRootReference sourceCode fuel node <> Throws e.
Proof.
  induction fuel as [|fuel IH]; intros node e;
    rewrite findRootReference_unfold; cbv zeta;
    destruct node as [n|]; try discriminate;
    destruct n; try discriminate;
    try (destruct (findReference sourceCode _) as [d|]; try discriminate;
         destruct (def_init d); try discriminate);
    apply IH.
Qed.

(** The origin of a present node is a node. *)
Lemma findRootReference_present (fuel : nat) :
  forall n origin,
    findRootReference sourceCode fuel (Some n) = Returns origin ->
    exists o, origin = Some o.
Proof.
  induction fuel as [|fuel IH]; intros n origin H;
    rewrite findRootReference_unfold in H; cbv zeta in H;
    destruct n;
    try (destruct (findReference sourceCode _) as [d|];
         [destruct (def_init d)|]);
    try discriminate H;
    try (injection H as <-; eexists; reflexivity);
    eapply IH; exact H.
Qed.

Lemma traceOrigin_sound (fuel : nat) :
  forall n origin,
    findRootReference sourceCode fuel (Some n) = Returns (Some origin) ->
    traceOrigin sourceCode n origin.
Proof.
  induction fuel as [|fuel IH]; intros n origin H;
    rewrite findRootReference_unfold in H; cbv zeta in H;
    destruct n;
    try (destruct (findReference sourceCode _) as [d|] eqn:Href;
         [destruct (def_init d) eqn:Hinit|]);
    try discriminate H;
    try (injection H as <-);
    eauto using traceOrigin.
  all: apply trace_other; try reflexivity.
  all: match goal with k : OtherKind |- _ => destruct k; reflexivity end.
Qed.

Lemma traceOrigin_complete (n origin : Node) :
  traceOrigin sourceCode n origin ->
  exists fuel, findRootReference sourceCode fuel (Some n) = Returns (Some origin).
Proof.
  induction 1 as [loc name d init origin Href Hinit _ [fuel IH]
                 |loc name d Href Hinit
                 |loc name Href
                 |loc callee args origin _ [fuel IH]
                 |loc callee args origin _ [fuel IH]
                 |loc object property computed origin _ [fuel IH]
                 |node Hkind].
  - exists (S fuel). rewrite findRootReference_unfold; cbv zeta.
    rewrite Href, Hinit. exact IH.
  - exists 0. simpl. rewrite Href, Hinit. reflexivity.
  - exists 0. simpl. rewrite Href. reflexivity.
  - exists (S fuel). exact IH.
  - exists (S fuel). exact IH.
  - exists (S fuel). exact IH.
  - exists 0. destruct node; try discriminate Hkind; reflexivity.
Qed.

(** Tracing returns exactly on the nodes from which every chain of
    nested calls is finite. *)
Lemma findRootReference_returns_when_well_founded (n : Node) :
  Acc (nested_call sourceCode) n ->
  exists fuel origin, findRootReference sourceCode fuel (Some n) = Returns (Some origin).
Proof.
  induction 1 as [n _ IH].
  assert (Hnext : forall next, nested_call sourceCode next n ->
            exists fuel origin,
              findRootReference sourceCode (S fuel) (Some n) = Returns (Some origin) /\
              findRootReference sourceCode fuel (Some next) = Returns (Some origin)).
  { intros next Hcall. destruct (IH next Hcall) as [fuel [origin Hfuel]].
    exists fuel, origin. split; [|exact Hfuel].
    rewrite findRootReference_unfold. cbv zeta.
    destruct Hcall as [loc name d init Href Hinit| | |];
      try rewrite Href, Hinit; exact Hfuel. }
  destruct n as [loc name|loc lit|loc callee args|loc callee args
                |loc object property computed|loc meta property|loc kind|].
  - destruct (findReference sourceCode (Identifier loc name)) as [d|] eqn:Href.
    + destruct (def_init d) as [init|] eqn:Hinit.
      * destruct (Hnext init (nested_initializer _ _ _ _ _ Href Hinit))
          as [fuel [origin [H _]]]. eauto.
      * exists 0, (Identifier loc name). simpl. rewrite Href, Hinit. reflexivity.
    + exists 0, (Identifier loc name). simpl. rewrite Href. reflexivity.
  - exists 0. eexists. reflexivity.
  - destruct (Hnext callee (nested_callee _ _ _ _)) as [fuel [origin [H _]]]. eauto.
  - destruct (Hnext callee (nested_constructor _ _ _ _)) as [fuel [origin [H _]]]. eauto.
  - destruct (Hnext object (nested_object _ _ _ _ _)) as [fuel [origin [H _]]]. eauto.
  - exists 0. eexists. reflexivity.
  - exists 0. eexists. reflexivity.
  - exists 0. eexists. reflexivity.
Qed.

Lemma findRootReference_returns_only_when_well_founded (fuel : nat) :
  forall n origin,
    findRootReference sourceCode fuel (Some n) = Returns origin ->
    Acc (nested_call sourceCode) n.
Proof.
  induction fuel as [|fuel IH]; intros n origin H; constructor; intros next Hcall;
    rewrite findRootReference_unfold in H; cbv zeta in H;
    destruct Hcall as [loc name d init Href Hinit| | |];
    try rewrite Href, Hinit in H;
    try discriminate H; eapply IH; exact H.
Qed.

End Tracing.

(** C9.  The origin tracer of the source computes the kind-directed
    algorithm of the specification: tracing a node returns an origin,
    with enough fuel for its nested calls, exactly when the
    specification's rules derive that origin.  An identifier is resolved
    through [findReference] and traced through the initializer of its
    definition when there is one, and is its own origin otherwise; a call
    or construction is traced through its callee, a member access through
    its object, and every other kind of node is its own origin. *)
Theorem findRootReference_follows_specified_algorithm :
  forall (sourceCode : SourceCode) (node origin : Node),
    traceOrigin sourceCode node origin <->
    exists fuel, findRootReference sourceCode fuel (Some node) = Returns (Some origin).
Proof.
  intros sourceCode node origin. split.
  - apply traceOrigin_complete.
  - intros [fuel H]. exact (traceOrigin_sound sourceCode fuel node origin H).
Qed.

(** ** The regex classifier *)

(** C8.  Seen as a boolean, the classifier answers false for an absent
    node, true for a node that carries regex-literal syntax, and for any
    other node it answers whether the traced origin exists and either
    carries regex-literal syntax or is an identifier named [RegExp]; it
    returns whenever the tracing does. *)
Theorem isRegExp_is_the_specified_classifier :
  forall (sourceCode : SourceCode) (fuel : nat) (lookup : option Node),
    outcome_map truthy (isRegExp sourceCode fuel lookup) =
    match lookup with
    | None => Returns false
    | Some node =>
        if carries_regex_syntax node then Returns true
        else outcome_map origin_is_regex (findRootReference sourceCode fuel lookup)
    end.
Proof.
  intros sourceCode fuel [node|]; [|reflexivity].
  unfold isRegExp, outcome_map.
  destruct node as [loc name|loc lit|loc callee args|loc callee args
                   |loc object property computed|loc meta property|loc kind|];
    try destruct lit; cbn [node_regex carries_regex_syntax]; try reflexivity.
  all: match goal with
       | |- context [findRootReference ?s ?f ?n] =>
           destruct (findRootReference s f n) as [[o|]| |]; cbn [bind]; try reflexivity
       end.
  all: destruct o as [? ?|? lit'| | | | | |]; try destruct lit'; reflexivity.
Qed.

(** ** Scope resolution *)

Lemma at_last_app {A : Type} (earlier : list A) (latest : A) :
  at_last (earlier ++ [latest]) = Some latest.
Proof.
  induction earlier as [|a rest IH]; [reflexivity|].
  cbn [app at_last]. destruct (rest ++ [latest])%list eqn:E; [|exact IH].
  destruct rest; discriminate E.
Qed.

(** C10.  When the reference found for an identifier is resolved to a
    variable with several definitions, [findReference] returns the node of
    the last one, and tracing the identifier continues in the initializer
    of that last definition. *)
Theorem findReference_takes_last_definition :
  forall (sourceCode : SourceCode) (loc : range) (name : string)
         (reference : Reference) (variable : ScopeVariable)
         (earlier : list Definition_) (latest : Definition_) (fuel : nat),
    find (fun r => same_name (node_name (identifier r)) (Some name))
         (references (getScope sourceCode (Identifier loc name))) = Some reference ->
    resolved reference = Some variable ->
    defs variable = (earlier ++ [latest])%list ->
    findReference sourceCode (Identifier loc name) = Some (def_node latest) /\
    findRootReference sourceCode (S fuel) (Some (Identifier loc name)) =
      match def_init (def_node latest) with
      | Some init => findRootReference sourceCode fuel (Some init)
      | None => Returns (Some (Identifier loc name))
      end.
Proof.
  intros sourceCode loc name reference variable earlier latest fuel Hfind Hres Hdefs.
  assert (Href : findReference sourceCode (Identifier loc name) = Some (def_node latest)).
  { unfold findReference. cbn [node_name]. rewrite Hfind, Hres, Hdefs.
    rewrite at_last_app. destruct earlier; reflexivity. }
  split; [exact Href|].
  rewrite findRootReference_unfold. cbv zeta. rewrite Href. reflexivity.
Qed.

(** In [var r = /a/; var r = 's'; t.true(r.test(x));] the identifier
    [r] is traced to the string of the second declaration. *)
Lemma findReference_takes_last_definition_witness :
  findReference Redeclared.host Redeclared.r = Some Redeclared.second /\
  findRootReference Redeclared.host 1 (Some Redeclared.r) =
    Returns (Some (Literal (21, 24) (StringLiteral "'s'"))).
Proof.
  exact (findReference_takes_last_definition Redeclared.host (33, 34) "r"
           Redeclared.reference Redeclared.variable
           [ {| def_node := Redeclared.first |} ] {| def_node := Redeclared.second |} 0
           eq_refl eq_refl eq_refl).
Defined.

Lemma redeclared_is_not_reported (fuel : nat) :
  onCallExpression Redeclared.host inTest inTest rootObjectName (S (S fuel)) Redeclared.call
  = Returns [].
Proof. reflexivity. Qed.

(** ** The visitor and the two handlers *)

Section Handlers.

Variable sourceCode : SourceCode.
Variable isInTestFile isInTestNode : Node -> bool.
Variable getNameOfRootNodeObject : Node -> option string.

Abbreviation visit := (onCallExpression sourceCode isInTestFile isInTestNode getNameOfRootNodeObject).

(** What the visitor does with [object.method(arguments)]. *)
Lemma onCallExpression_method_call (fuel : nat) (loc calleeLoc methodLoc : range)
    (object : Node) (method : string) (arguments : list Node) :
  let node := method_call loc calleeLoc methodLoc object method arguments in
  visit fuel node =
  if negb (isInTestFile node && isInTestNode node) then Returns []
  else if negb (same_name (getNameOfRootNodeObject
                             (MemberExpression calleeLoc object (Identifier methodLoc method) false))
                          (Some "t"))
  then Returns []
  else if includes booleanTests (Some method) then booleanHandler sourceCode fuel node
  else if includes equalityTests (Some method) then equalityHandler sourceCode fuel node
  else Returns [].
Proof.
  cbv zeta. unfold onCallExpression, method_call.
  cbn [node_callee node_property node_type node_name].
  destruct (negb _); [reflexivity|].
  change (same_name (Some "MemberExpression") (Some "MemberExpression")) with true.
  cbn [andb]. destruct (same_name (getNameOfRootNodeObject _) _); reflexivity.
Qed.

(** [t.asserted(lookup.test(variable, ...), ...)]: the handler reports
    exactly when the lookup classifies as a regex. *)
Lemma booleanHandler_on_test (fuel : nat) (l0 l1 l2 l3 l4 l5 : range)
    (tObject lookup : Node) (asserted : string) (innerArguments more : list Node) :
  let inner := method_call l3 l4 l5 lookup "test" innerArguments in
  let node := method_call l0 l1 l2 tObject asserted (inner :: more) in
  let assertion := if includes ["true"; "truthy"] (Some asserted) then "regex" else "notRegex" in
  booleanHandler sourceCode fuel node =
  verdict <- isRegExp sourceCode fuel (Some lookup) ;;
  if negb (truthy verdict) then Returns []
  else Returns
         [ {| finding_node := node;
              message := prefer_message assertion;
              finding_fix :=
                Returns
                  [ replaceText (Identifier l2 asserted) assertion;
                    replaceText inner
                      (getText sourceCode (item 0 innerArguments) ++ ", "
                       ++ getText sourceCode (Some lookup)) ] |} ].
Proof. reflexivity. Qed.

(** [t.asserted(variable.match(lookup, ...), ...)] and the same with
    [search]: the call argument is the lookup. *)
Lemma booleanHandler_on_match (fuel : nat) (l0 l1 l2 l3 l4 l5 : range)
    (tObject variable : Node) (asserted method : string) (innerArguments more : list Node) :
  method = "match" \/ method = "search" ->
  let inner := method_call l3 l4 l5 variable method innerArguments in
  let node := method_call l0 l1 l2 tObject asserted (inner :: more) in
  let assertion := if includes ["true"; "truthy"] (Some asserted) then "regex" else "notRegex" in
  booleanHandler sourceCode fuel node =
  verdict <- isRegExp sourceCode fuel (item 0 innerArguments) ;;
  if negb (truthy verdict) then Returns []
  else Returns
         [ {| finding_node := node;
              message := prefer_message assertion;
              finding_fix :=
                Returns
                  [ replaceText (Identifier l2 asserted) assertion;
                    replaceText inner
                      (getText sourceCode (Some variable) ++ ", "
                       ++ getText sourceCode (item 0 innerArguments)) ] |} ].
Proof. intros [-> | ->]; reflexivity. Qed.

Lemma assertion_table_boolean (asserted target : string) :
  In (asserted, target) assertion_table ->
  includes booleanTests (Some asserted) = true /\
  (if includes ["true"; "truthy"] (Some asserted) then "regex" else "notRegex") = target.
Proof.
  intros [H|[H|[H|[H|[]]]]]; injection H as <- <-; split; reflexivity.
Qed.

End Handlers.

(** C4.  For every visited [t.asserted(r.test(s))], where [asserted] is
    one of [true], [truthy], [false], [falsy] and [r] classifies as a
    regex, the rule reports one finding on the assertion; its fix renames
    the assertion to the one the table gives ([regex] for [true] and
    [truthy], [notRegex] for [false] and [falsy]) and replaces the text of
    the inner call with the text of [s], a comma and the text of [r]. *)
Theorem boolean_test_is_rewritten :
  forall (sourceCode : SourceCode) (isInTestFile isInTestNode : Node -> bool)
         (getNameOfRootNodeObject : Node -> option string) (fuel : nat)
         (l0 l1 l2 l3 l4 l5 : range) (tObject r s : Node) (asserted target : string)
         (others more : list Node) (verdict : JSValue),
    isInTestFile
      (method_call l0 l1 l2 tObject asserted
         (method_call l3 l4 l5 r "test" (s :: others) :: more)) = true ->
    isInTestNode
      (method_call l0 l1 l2 tObject asserted
         (method_call l3 l4 l5 r "test" (s :: others) :: more)) = true ->
    getNameOfRootNodeObject (MemberExpression l1 tObject (Identifier l2 asserted) false)
      = Some "t" ->
    In (asserted, target) assertion_table ->
    isRegExp sourceCode fuel (Some r) = Returns verdict ->
    truthy verdict = true ->
    onCallExpression sourceCode isInTestFile isInTestNode getNameOfRootNodeObject fuel
      (method_call l0 l1 l2 tObject asserted
         (method_call l3 l4 l5 r "test" (s :: others) :: more))
    = Returns
        [ {| finding_node :=
               method_call l0 l1 l2 tObject asserted
                 (method_call l3 l4 l5 r "test" (s :: others) :: more);
             message := prefer_message target;
             finding_fix :=
               Returns
                 [ replaceText (Identifier l2 asserted) target;
                   replaceText (method_call l3 l4 l5 r "test" (s :: others))
                     (getText sourceCode (Some s) ++ ", " ++ getText sourceCode (Some r)) ] |} ].
Proof.
  intros sourceCode isInTestFile isInTestNode getNameOfRootNodeObject fuel
         l0 l1 l2 l3 l4 l5 tObject r s asserted target others more verdict
         Hfile Hnode Hroot Htable Hverdict Htruthy.
  destruct (assertion_table_boolean asserted target Htable) as [Hboolean Htarget].
  rewrite onCallExpression_method_call. cbv zeta.
  rewrite Hfile, Hnode, Hroot, Hboolean. cbn [andb negb same_name].
  change (String.eqb "t" "t") with true. cbn [negb].
  rewrite booleanHandler_on_test. cbv zeta.
  rewrite Hverdict. cbn [bind]. rewrite Htruthy, Htarget. reflexivity.
Qed.

(** [const re = /ab/; t.true(re.test(x));] becomes [t.regex(x, re)]. *)
Lemma boolean_test_is_rewritten_witness :
  onCallExpression Aliased.host inTest inTest rootObjectName 1 Aliased.call
  = Returns
      [ {| finding_node := Aliased.call;
           message := "Prefer using the `t.regex()` assertion.";
           finding_fix :=
             Returns [ replaceText Aliased.asserted "regex";
                       replaceText Aliased.inner "x, re" ] |} ].
Proof.
  exact (boolean_test_is_rewritten Aliased.host inTest inTest rootObjectName 1
           (17, 35) (17, 23) (19, 23) (24, 34) (24, 31) (27, 31)
           (Identifier (17, 18) "t") Aliased.re Aliased.x "true" "regex" [] []
           (JSRegex (mkRegex (11, 15) "ab" ""))
           eq_refl eq_refl eq_refl (or_introl eq_refl) eq_refl eq_refl).
Defined.

(** C5.  For every visited [t.asserted(s.match(r))] or
    [t.asserted(s.search(r))] where [r] classifies as a regex, the call
    argument is the candidate regex and the callee object the subject
    string: the fix renames the assertion as the table says ([regex] for
    [t.true]) and replaces the inner call with the text of [s], a comma
    and the text of [r]. *)
Theorem boolean_match_is_rewritten :
  forall (sourceCode : SourceCode) (isInTestFile isInTestNode : Node -> bool)
         (getNameOfRootNodeObject : Node -> option string) (fuel : nat)
         (l0 l1 l2 l3 l4 l5 : range) (tObject r s : Node) (asserted target method : string)
         (others more : list Node) (verdict : JSValue),
    isInTestFile
      (method_call l0 l1 l2 tObject asserted
         (method_call l3 l4 l5 s method (r :: others) :: more)) = true ->
    isInTestNode
      (method_call l0 l1 l2 tObject asserted
         (method_call l3 l4 l5 s method (r :: others) :: more)) = true ->
    getNameOfRootNodeObject (MemberExpression l1 tObject (Identifier l2 asserted) false)
      = Some "t" ->
    method = "match" \/ method = "search" ->
    In (asserted, target) assertion_table ->
    isRegExp sourceCode fuel (Some r) = Returns verdict ->
    truthy verdict = true ->
    onCallExpression sourceCode isInTestFile isInTestNode getNameOfRootNodeObject fuel
      (method_call l0 l1 l2 tObject asserted
         (method_call l3 l4 l5 s method (r :: others) :: more))
    = Returns
        [ {| finding_node :=
               method_call l0 l1 l2 tObject asserted
                 (method_call l3 l4 l5 s method (r :: others) :: more);
             message := prefer_message target;
             finding_fix :=
               Returns
                 [ replaceText (Identifier l2 asserted) target;
                   replaceText (method_call l3 l4 l5 s method (r :: others))
                     (getText sourceCode (Some s) ++ ", " ++ getText sourceCode (Some r)) ] |} ].
Proof.
  intros sourceCode isInTestFile isInTestNode getNameOfRootNodeObject fuel
         l0 l1 l2 l3 l4 l5 tObject r s asserted target method others more verdict
         Hfile Hnode Hroot Hmethod Htable Hverdict Htruthy.
  destruct (assertion_table_boolean asserted target Htable) as [Hboolean Htarget].
  rewrite onCallExpression_method_call. cbv zeta.
  rewrite Hfile, Hnode, Hroot, Hboolean. cbn [andb negb same_name].
  change (String.eqb "t" "t") with true. cbn [negb].
  rewrite (booleanHandler_on_match sourceCode fuel l0 l1 l2 l3 l4 l5 tObject s asserted
             method (r :: others) more Hmethod).
  cbv zeta. cbn [item nth_error].
  rewrite Hverdict. cbn [bind]. rewrite Htruthy, Htarget. reflexivity.
Qed.

(** [t.falsy(s.search(/a+/));] becomes [t.notRegex(s, /a+/)]. *)
Lemma boolean_match_is_rewritten_witness :
  onCallExpression Searched.host inTest inTest rootObjectName 0 Searched.call
  = Returns
      [ {| finding_node := Searched.call;
           message := "Prefer using the `t.notRegex()` assertion.";
           finding_fix :=
             Returns [ replaceText Searched.asserted "notRegex";
                       replaceText Searched.inner "s, /a+/" ] |} ].
Proof.
  exact (boolean_match_is_rewritten Searched.host inTest inTest rootObjectName 0
           (0, 23) (0, 7) (2, 7) (8, 22) (8, 16) (10, 16)
           (Identifier (0, 1) "t") Searched.literal Searched.subject
           "falsy" "notRegex" "search" [] [] (JSBoolean true)
           eq_refl eq_refl eq_refl (or_intror eq_refl)
           (or_intror (or_intror (or_intror (or_introl eq_refl)))) eq_refl eq_refl).
Defined.

Lemma findRootReference_terminal (sourceCode : SourceCode) (fuel : nat) (n : Node) :
  traced_kind n = false ->
  findRootReference sourceCode fuel (Some n) = Returns (Some n).
Proof.
  intros H. rewrite findRootReference_unfold. cbv zeta.
  destruct n; try discriminate H; reflexivity.
Qed.

Lemma isRegExp_PlainObject (sourceCode : SourceCode) (fuel : nat) :
  isRegExp sourceCode fuel (Some PlainObject) = Returns (JSBoolean false).
Proof.
  unfold isRegExp. cbn [node_regex].
  rewrite findRootReference_terminal by reflexivity. reflexivity.
Qed.

Lemma booleanHandler_on_other_method (sourceCode : SourceCode) (fuel : nat)
    (l0 l1 l2 l3 l4 l5 : range) (tObject x : Node) (asserted method : string)
    (innerArguments more : list Node) :
  method <> "test" -> method <> "match" -> method <> "search" ->
  booleanHandler sourceCode fuel
    (method_call l0 l1 l2 tObject asserted
       (method_call l3 l4 l5 x method innerArguments :: more))
  = Returns [].
Proof.
  intros Htest Hmatch Hsearch.
  apply String.eqb_neq in Htest, Hmatch, Hsearch.
  unfold booleanHandler, method_call.
  cbn [read node_arguments bind item nth_error node_type same_name node_callee
       node_property node_name negb].
  change (String.eqb "CallExpression" "CallExpression") with true. cbn [negb].
  rewrite Htest. unfold includes. cbn [existsb same_name].
  rewrite (String.eqb_sym "search" method), (String.eqb_sym "match" method).
  rewrite Hmatch, Hsearch. cbn [orb bind fst snd].
  rewrite isRegExp_PlainObject. reflexivity.
Qed.

(** C6.  For every boolean assertion [t.asserted(x.m(...))] whose inner
    method name [m] is none of [test], [match] and [search], the lookup
    stays the placeholder object, which never classifies as a regex: the
    handler, and so the visitor, reports nothing. *)
Theorem other_method_is_not_reported :
  forall (sourceCode : SourceCode) (isInTestFile isInTestNode : Node -> bool)
         (getNameOfRootNodeObject : Node -> option string) (fuel : nat)
         (l0 l1 l2 l3 l4 l5 : range) (tObject x : Node) (asserted method : string)
         (innerArguments more : list Node),
    In asserted booleanTests ->
    method <> "test" -> method <> "match" -> method <> "search" ->
    booleanHandler sourceCode fuel
      (method_call l0 l1 l2 tObject asserted
         (method_call l3 l4 l5 x method innerArguments :: more))
    = Returns [] /\
    onCallExpression sourceCode isInTestFile isInTestNode getNameOfRootNodeObject fuel
      (method_call l0 l1 l2 tObject asserted
         (method_call l3 l4 l5 x method innerArguments :: more))
    = Returns [].
Proof.
  intros sourceCode isInTestFile isInTestNode getNameOfRootNodeObject fuel
         l0 l1 l2 l3 l4 l5 tObject x asserted method innerArguments more
         Hasserted Htest Hmatch Hsearch.
  pose proof (booleanHandler_on_other_method sourceCode fuel l0 l1 l2 l3 l4 l5 tObject x
                asserted method innerArguments more Htest Hmatch Hsearch) as Hhandler.
  split; [exact Hhandler|].
  rewrite onCallExpression_method_call. cbv zeta.
  destruct (negb (_ && _)); [reflexivity|].
  destruct (negb (same_name _ _)); [reflexivity|].
  rewrite Hhandler.
  destruct (includes booleanTests (Some asserted)); [reflexivity|].
  destruct Hasserted as [<-|[<-|[<-|[<-|[]]]]]; reflexivity.
Qed.

(** [t.true(/x/.exec(s));] is left alone, although [/x/] is a regex. *)
Lemma other_method_is_not_reported_witness :
  booleanHandler OtherMethod.host 3 OtherMethod.call = Returns [] /\
  onCallExpression OtherMethod.host inTest inTest rootObjectName 3 OtherMethod.call
  = Returns [].
Proof.
  apply (other_method_is_not_reported OtherMethod.host inTest inTest rootObjectName 3
           (0, 19) (0, 6) (2, 6) (7, 18) (7, 15) (11, 15)
           (Identifier (0, 1) "t") OtherMethod.literal "true" "exec"
           [Identifier (16, 17) "s"] []).
  - simpl. left. reflexivity.
  - discriminate.
  - discriminate.
  - discriminate.
Defined.

(** A literal that classifies as a regex is a regex literal. *)
Lemma isRegExp_literal (sourceCode : SourceCode) (fuel : nat) (loc : range)
    (lit : LiteralKind) (verdict : JSValue) :
  isRegExp sourceCode fuel (Some (Literal loc lit)) = Returns verdict ->
  truthy verdict = true ->
  exists pat flg, lit = RegExpLiteral pat flg.
Proof.
  intros H Htruthy. unfold isRegExp in H.
  destruct lit; cbn [node_regex] in H;
    try (rewrite findRootReference_terminal in H by reflexivity;
         cbn in H; injection H as <-; discriminate Htruthy).
  eexists _, _. reflexivity.
Qed.

(** The raw text of a regex literal starts with a slash. *)
Lemma regex_raw_is_no_boolean (pat flg : string) :
  same_name (Some (literal_raw (RegExpLiteral pat flg))) (Some "true") = false /\
  same_name (Some (literal_raw (RegExpLiteral pat flg))) (Some "false") = false.
Proof. split; reflexivity. Qed.

Lemma falsy_is_false (v : JSValue) : truthy v = false -> v = JSBoolean false.
Proof. destruct v as [[|]|r]; intros H; try discriminate H; reflexivity. Qed.

Lemma equalityHandler_on_alike_sides (sourceCode : SourceCode) (fuel : nat)
    (l0 l1 l2 : range) (tObject a b : Node) (asserted : string) (more : list Node)
    (first second : JSValue) :
  isRegExp sourceCode fuel (Some a) = Returns first ->
  isRegExp sourceCode fuel (Some b) = Returns second ->
  truthy first = truthy second ->
  equalityHandler sourceCode fuel (method_call l0 l1 l2 tObject asserted (a :: b :: more))
  = Returns [].
Proof.
  intros Ha Hb Halike.
  unfold equalityHandler, method_call.
  cbn [read node_arguments bind item nth_error].
  rewrite Ha, Hb. cbn [bind].
  destruct (strict_equal first second) eqn:Hequal; [reflexivity|].
  destruct (truthy second) eqn:Hsecond.
  - (* both sides classify as regex: the matchee is the first argument *)
    cbn [read bind].
    destruct (same_name (node_type a) (Some "Literal")) eqn:Htype; [|reflexivity].
    destruct a as [? ?|loc lit| | | | |? kind|];
      try discriminate Htype; [|destruct kind; discriminate Htype].
    destruct (isRegExp_literal sourceCode fuel loc lit first Ha Halike) as [pat [flg ->]].
    cbn [read node_raw bind].
    destruct (regex_raw_is_no_boolean pat flg) as [-> ->]. reflexivity.
  - (* neither does: both answers are the boolean false *)
    rewrite (falsy_is_false first Halike), (falsy_is_false second Hsecond) in Hequal.
    discriminate Hequal.
Qed.

(** C7.  For every equality assertion [t.is(a, b)] or [t.deepEqual(a, b)]
    whose two arguments both classify as regex, or both do not, nothing
    is reported, whatever the evidence of each classification (a regex
    literal, the regex object of a traced literal, or the name [RegExp]). *)
Theorem equality_of_alike_sides_is_not_reported :
  forall (sourceCode : SourceCode) (isInTestFile isInTestNode : Node -> bool)
         (getNameOfRootNodeObject : Node -> option string) (fuel : nat)
         (l0 l1 l2 : range) (tObject a b : Node) (asserted : string) (more : list Node)
         (first second : JSValue),
    In asserted equalityTests ->
    isRegExp sourceCode fuel (Some a) = Returns first ->
    isRegExp sourceCode fuel (Some b) = Returns second ->
    truthy first = truthy second ->
    equalityHandler sourceCode fuel (method_call l0 l1 l2 tObject asserted (a :: b :: more))
    = Returns [] /\
    onCallExpression sourceCode isInTestFile isInTestNode getNameOfRootNodeObject fuel
      (method_call l0 l1 l2 tObject asserted (a :: b :: more))
    = Returns [].
Proof.
  intros sourceCode isInTestFile isInTestNode getNameOfRootNodeObject fuel
         l0 l1 l2 tObject a b asserted more first second Hasserted Ha Hb Halike.
  pose proof (equalityHandler_on_alike_sides sourceCode fuel l0 l1 l2 tObject a b asserted
                more first second Ha Hb Halike) as Hhandler.
  split; [exact Hhandler|].
  rewrite onCallExpression_method_call. cbv zeta.
  destruct (negb (_ && _)); [reflexivity|].
  destruct (negb (same_name _ _)); [reflexivity|].
  rewrite Hhandler.
  destruct Hasserted as [<-|[<-|[]]]; reflexivity.
Qed.

(** [t.is(/a/.test(s), /b/.test(s));]: the two classifications are the
    regex objects of two different literals, and nothing is reported. *)
Lemma equality_of_alike_sides_is_not_reported_witness :
  equalityHandler BothRegex.host 2 BothRegex.call = Returns [] /\
  onCallExpression BothRegex.host inTest inTest rootObjectName 2 BothRegex.call = Returns [].
Proof.
  apply (equality_of_alike_sides_is_not_reported BothRegex.host inTest inTest rootObjectName 2
           (0, 30) (0, 4) (2, 4) (Identifier (0, 1) "t") BothRegex.left BothRegex.right
           "is" [] (JSRegex (mkRegex (5, 8) "a" "")) (JSRegex (mkRegex (18, 21) "b" ""))).
  - simpl. left. reflexivity.
  - reflexivity.
  - reflexivity.
  - reflexivity.
Defined.

(** ** Guards against absent children *)


(** An assertion without argument is left alone by both handlers. *)
Lemma handlers_without_argument (sourceCode : SourceCode) (fuel : nat)
    (l0 l1 l2 : range) (tObject : Node) (asserted : string) :
  booleanHandler sourceCode fuel (method_call l0 l1 l2 tObject asserted []) = Returns [] /\
  equalityHandler sourceCode fuel (method_call l0 l1 l2 tObject asserted []) = Returns [].
Proof. split; reflexivity. Qed.

(** [t.true(foo(bar))]: an inner callee without [property] is left alone. *)
Lemma booleanHandler_without_property (sourceCode : SourceCode) (fuel : nat)
    (l0 l1 l2 l3 : range) (tObject callee : Node) (asserted : string)
    (innerArguments more : list Node) :
  node_property callee = None ->
  booleanHandler sourceCode fuel
    (method_call l0 l1 l2 tObject asserted (CallExpression l3 callee innerArguments :: more))
  = Returns [].
Proof.
  intros H. unfold booleanHandler, method_call.
  cbn [read node_arguments bind item nth_error node_type same_name node_callee].
  change (String.eqb "CallExpression" "CallExpression") with true. cbn [negb].
  rewrite H. reflexivity.
Qed.

(** A single regex argument has no matchee and is left alone. *)
Lemma equalityHandler_without_matchee (sourceCode : SourceCode) (fuel : nat)
    (l0 l1 l2 l3 : range) (tObject : Node) (asserted pat flg : string) :
  equalityHandler sourceCode fuel
    (method_call l0 l1 l2 tObject asserted [Literal l3 (RegExpLiteral pat flg)])
  = Returns [].
Proof. reflexivity. Qed.

(** ** No exception leaves the visitor *)


Lemma call_type_is_call (n : Node) :
  same_name (node_type n) (Some "CallExpression") = true ->
  exists loc callee arguments, n = CallExpression loc callee arguments.
Proof.
  destruct n as [| | | | | |? kind|]; try discriminate; [|destruct kind; discriminate].
  intros _. eexists _, _, _. reflexivity.
Qed.




(** ** What the equality handler reports *)

(** [t.is(/a/.test(s), false);] becomes [t.notRegex(s, /a/);]. *)
Lemma equality_with_test_is_rewritten (fuel : nat) :
  onCallExpression TestedEquality.host inTest inTest rootObjectName (S (S fuel))
    TestedEquality.call
  = Returns
      [ {| finding_node := TestedEquality.call;
           message := "Prefer using the `t.notRegex()` assertion.";
           finding_fix :=
             Returns [ replaceText TestedEquality.asserted "notRegex";
                       replaceText TestedEquality.tested "s";
                       replaceText TestedEquality.matchee "/a/" ] |} ].
Proof. destruct fuel; reflexivity. Qed.

(** X13.  The equality handler reports only when exactly one side classifies
    as a regex and the other side is a literal whose raw text is [true]
    or [false]. *)
Lemma equalityHandler_reports_only_on_boolean_text (sourceCode : SourceCode) (fuel : nat)
    (l0 l1 l2 : range) (tObject a b : Node) (asserted : string) (more : list Node)
    (finding : Finding) (rest : list Finding) :
  equalityHandler sourceCode fuel (method_call l0 l1 l2 tObject asserted (a :: b :: more))
  = Returns (finding :: rest) ->
  exists first second,
    isRegExp sourceCode fuel (Some a) = Returns first /\
    isRegExp sourceCode fuel (Some b) = Returns second /\
    truthy first = negb (truthy second) /\
    node_type (if truthy second then a else b) = Some "Literal" /\
    (node_raw (if truthy second then a else b) = Some "true" \/
     node_raw (if truthy second then a else b) = Some "false").
Proof.
  intros H.
  destruct (isRegExp sourceCode fuel (Some a)) as [first| |] eqn:Ha;
    try (unfold equalityHandler, method_call in H;
         cbn [read node_arguments bind item nth_error] in H;
         rewrite Ha in H; discriminate H).
  destruct (isRegExp sourceCode fuel (Some b)) as [second| |] eqn:Hb;
    try (unfold equalityHandler, method_call in H;
         cbn [read node_arguments bind item nth_error] in H;
         rewrite Ha, Hb in H; discriminate H).
  exists first, second. split; [reflexivity|]. split; [reflexivity|].
  assert (Hdiffer : truthy first = negb (truthy second)).
  { destruct (truthy first) eqn:Hfirst, (truthy second) eqn:Hsecond; try reflexivity;
      rewrite (equalityHandler_on_alike_sides sourceCode fuel l0 l1 l2 tObject a b asserted
                 more first second Ha Hb) in H by congruence; discriminate H. }
  split; [exact Hdiffer|].
  unfold equalityHandler, method_call in H.
  cbn [read node_arguments bind item nth_error] in H.
  rewrite Ha, Hb in H. cbn [bind] in H.
  destruct (strict_equal first second); [discriminate H|].
  destruct (truthy second); cbn [read bind] in H.
  - destruct (same_name (node_type a) (Some "Literal")) eqn:Htype; [|discriminate H].
    destruct a as [| lit loc | | | | |? kind|]; try discriminate Htype;
      [|destruct kind; discriminate Htype].
    split; [reflexivity|]. cbn [read bind node_raw same_name] in H |- *.
    destruct (String.eqb _ "true") eqn:Htrue.
    + left. apply String.eqb_eq in Htrue. congruence.
    + destruct (String.eqb _ "false") eqn:Hfalse; [|discriminate H].
      right. apply String.eqb_eq in Hfalse. congruence.
  - destruct (same_name (node_type b) (Some "Literal")) eqn:Htype; [|discriminate H].
    destruct b as [| lit loc | | | | |? kind|]; try discriminate Htype;
      [|destruct kind; discriminate Htype].
    split; [reflexivity|]. cbn [read bind node_raw same_name] in H |- *.
    destruct (String.eqb _ "true") eqn:Htrue.
    + left. apply String.eqb_eq in Htrue. congruence.
    + destruct (String.eqb _ "false") eqn:Hfalse; [|discriminate H].
      right. apply String.eqb_eq in Hfalse. congruence.
Qed.

(** ** Inputs on which the rule departs from the specification *)

(** Nothing in the handler looks at the shape of the regex side: it
    reports on [t.is(a, true)] and [t.is(a, false)] as soon as [a]
    classifies as a regex. *)
Lemma equalityHandler_reports_whatever_the_regex_side (sourceCode : SourceCode)
    (fuel : nat) (l0 l1 l2 l3 : range) (tObject a : Node) (asserted : string)
    (value : bool) (more : list Node) (first : JSValue) :
  isRegExp sourceCode fuel (Some a) = Returns first ->
  truthy first = true ->
  exists edits,
    equalityHandler sourceCode fuel
      (method_call l0 l1 l2 tObject asserted (a :: Literal l3 (BooleanLiteral value) :: more))
    = Returns
        [ {| finding_node :=
               method_call l0 l1 l2 tObject asserted
                 (a :: Literal l3 (BooleanLiteral value) :: more);
             message := prefer_message (if value then "regex" else "notRegex");
             finding_fix := edits |} ].
Proof.
  intros Ha Htruthy.
  unfold equalityHandler, method_call.
  cbn [read node_arguments bind item nth_error].
  rewrite Ha. cbn [bind]. unfold isRegExp at 1. cbn [node_regex].
  rewrite findRootReference_terminal by reflexivity. cbn [bind node_regex node_name same_name].
  replace (strict_equal first (JSBoolean false)) with false
    by (destruct first as [[|]|]; try reflexivity; discriminate Htruthy).
  cbn [truthy read bind node_type].
  destruct value; eexists; reflexivity.
Qed.

(** [t.is(/a/g.global, true);] compares a flag of a regex, not a test
    of it; it is reported, with a fix that throws. *)
Lemma equality_with_regex_flag_is_reported (fuel : nat) :
  onCallExpression FlagEquality.host inTest inTest rootObjectName (S fuel) FlagEquality.call
  = Returns
      [ {| finding_node := FlagEquality.call;
           message := "Prefer using the `t.regex()` assertion.";
           finding_fix := Throws TypeError |} ].
Proof. destruct fuel; reflexivity. Qed.

(** C1.  On [t.is(/a/, true);] exactly one argument classifies as a
    regex and it is a plain literal, not a call: the rule reports the
    assertion all the same, and the fix of the finding throws when it
    reads the arguments of the literal. *)
Theorem equality_with_plain_regex_is_reported :
  forall fuel : nat,
    onCallExpression PlainRegexEquality.host inTest inTest rootObjectName fuel
      PlainRegexEquality.call
    = Returns
        [ {| finding_node := PlainRegexEquality.call;
             message := "Prefer using the `t.regex()` assertion.";
             finding_fix := Throws TypeError |} ].
Proof. intros fuel. destruct fuel; reflexivity. Qed.

Lemma self_initializer_loops (fuel : nat) :
  forall loc, findRootReference SelfInitialized.host fuel (Some (Identifier loc "x")) = OutOfFuel.
Proof.
  induction fuel as [|fuel IH]; intros loc; [reflexivity|].
  rewrite findRootReference_unfold. cbv zeta.
  change (findReference SelfInitialized.host (Identifier loc "x"))
    with (Some SelfInitialized.declarator).
  cbn [def_init SelfInitialized.declarator]. apply IH.
Qed.

(** C2.  In [var x = x; t.true(x.test('a'));] the definition of [x] has
    [x] itself as initializer: tracing [x] does not return whatever the
    fuel, the specification's rules derive no origin for it, and the
    visitor does not return on the assertion either. *)
Theorem findRootReference_loops_on_self_initializer :
  (forall fuel,
      findRootReference SelfInitialized.host fuel (Some SelfInitialized.x) = OutOfFuel) /\
  (forall origin, ~ traceOrigin SelfInitialized.host SelfInitialized.x origin) /\
  (forall fuel,
      onCallExpression SelfInitialized.host inTest inTest rootObjectName fuel
        SelfInitialized.call = OutOfFuel).
Proof.
  split; [|split].
  - intros fuel. apply self_initializer_loops.
  - intros origin H. apply traceOrigin_complete in H. destruct H as [fuel H].
    unfold SelfInitialized.x in H. rewrite self_initializer_loops in H. discriminate H.
  - intros fuel.
    change SelfInitialized.call
      with (method_call (11, 30) (11, 17) (13, 17) (Identifier (11, 12) "t") "true"
              [method_call (18, 29) (18, 24) (20, 24) SelfInitialized.x "test"
                 [Literal (25, 28) (StringLiteral "'a'")]]).
    rewrite onCallExpression_method_call. cbv zeta.
    change (negb (inTest _ && inTest _)) with false. cbv iota.
    change (negb (same_name (rootObjectName _) (Some "t"))) with false. cbv iota.
    change (includes booleanTests (Some "true")) with true. cbv iota.
    rewrite booleanHandler_on_test. cbv zeta.
    unfold isRegExp, SelfInitialized.x. cbn [node_regex].
    rewrite self_initializer_loops. reflexivity.
Qed.

(** C3.  On [t.true(/x/.test());] the inner call has no argument, yet
    the rule reports the assertion: the fix takes the text of the absent
    argument, which is the whole source text, as the tested string. *)
Theorem test_without_argument_is_reported :
  forall fuel : nat,
    onCallExpression MissingArgument.host inTest inTest rootObjectName fuel
      MissingArgument.call
    = Returns
        [ {| finding_node := MissingArgument.call;
             message := "Prefer using the `t.regex()` assertion.";
             finding_fix :=
               Returns
                 [ replaceText MissingArgument.asserted "regex";
                   replaceText MissingArgument.inner "t.true(/x/.test());, /x/" ] |} ].
Proof. intros fuel. reflexivity. Qed.

(** ** Further properties of the tracing *)

(** X1.  Tracing a node returns, with enough fuel, exactly when every
    chain of nested calls that starts at the node is finite. *)
Theorem findRootReference_returns_iff_well_founded :
  forall (sourceCode : SourceCode) (node : Node),
    Acc (nested_call sourceCode) node <->
    exists fuel origin,
      findRootReference sourceCode fuel (Some node) = Returns (Some origin).
Proof.
  intros sourceCode node. split.
  - apply findRootReference_returns_when_well_founded.
  - intros [fuel [origin H]].
    exact (findRootReference_returns_only_when_well_founded sourceCode fuel node _ H).
Qed.

Lemma Acc_reaches {A : Type} (R : A -> A -> Prop) (m n : A) :
  clos_refl_trans A R m n -> Acc R n -> Acc R m.
Proof.
  induction 1 as [x y Hstep|x|x y z _ IHxy _ IHyz]; intros Hacc.
  - exact (Acc_inv Hacc Hstep).
  - exact Hacc.
  - exact (IHxy (IHyz Hacc)).
Qed.

Lemma Acc_no_cycle {A : Type} (R : A -> A -> Prop) (m : A) :
  clos_trans A R m m -> ~ Acc R m.
Proof.
  intros Hcycle Hacc. apply Acc_clos_trans in Hacc.
  induction Hacc as [x _ IH]. exact (IH x Hcycle Hcycle).
Qed.

(** X2.  When the nested calls from a node reach a node that lies on a
    cycle of nested calls (a definition whose initializer leads back to
    it, through any number of variables), tracing the node returns with
    no fuel at all. *)
Theorem findRootReference_loops_on_cycles :
  forall (sourceCode : SourceCode) (node onCycle : Node) (fuel : nat),
    clos_refl_trans Node (nested_call sourceCode) onCycle node ->
    clos_trans Node (nested_call sourceCode) onCycle onCycle ->
    findRootReference sourceCode fuel (Some node) = OutOfFuel.
Proof.
  intros sourceCode node onCycle fuel Hreach Hcycle.
  destruct (findRootReference sourceCode fuel (Some node)) as [origin|e|] eqn:H.
  - exfalso. apply (Acc_no_cycle (nested_call sourceCode) onCycle Hcycle).
    apply (Acc_reaches _ onCycle node Hreach).
    exact (findRootReference_returns_only_when_well_founded sourceCode fuel node origin H).
  - exfalso. exact (findRootReference_never_throws sourceCode fuel _ _ H).
  - reflexivity.
Qed.

(** In [var x = x; t.true(x.test('a'));] the tested [x] calls for the
    initializer [x], which calls for itself. *)
Lemma findRootReference_loops_on_cycles_witness :
  findRootReference SelfInitialized.host 7 (Some SelfInitialized.x) = OutOfFuel.
Proof.
  apply (findRootReference_loops_on_cycles SelfInitialized.host SelfInitialized.x
           SelfInitialized.initializer 7).
  - apply rt_step.
    exact (nested_initializer SelfInitialized.host (18, 19) "x"
             SelfInitialized.declarator SelfInitialized.initializer eq_refl eq_refl).
  - apply t_step.
    exact (nested_initializer SelfInitialized.host (8, 9) "x"
             SelfInitialized.declarator SelfInitialized.initializer eq_refl eq_refl).
Defined.

(** X3.  The origin of a present node is a node, never a call, a
    construction or a member access, and tracing the origin again gives
    the origin itself without any nested call. *)
Theorem findRootReference_origin_is_final :
  forall (sourceCode : SourceCode) (fuel : nat) (node : Node) (origin : option Node),
    findRootReference sourceCode fuel (Some node) = Returns origin ->
    exists o,
      origin = Some o /\
      node_callee o = None /\ node_object o = None /\
      findRootReference sourceCode 0 (Some o) = Returns (Some o).
Proof.
  intros sourceCode fuel. induction fuel as [|fuel IH]; intros node origin H;
    rewrite findRootReference_unfold in H; cbv zeta in H;
    destruct node as [loc name|loc lit|loc callee args|loc callee args
                     |loc object property computed|loc meta property|loc kind|];
    try (destruct (findReference sourceCode (Identifier loc name)) as [d|] eqn:Href;
         [destruct (def_init d) as [init|] eqn:Hinit|]);
    try discriminate H;
    try (eapply IH; exact H);
    injection H as <-; eexists; repeat split; try reflexivity;
    cbn [findRootReference]; try rewrite Href; try rewrite Hinit; reflexivity.
Qed.

(** In [const re = /ab/; t.true(re.test(x));] the inner call traces to
    the literal [/ab/]. *)
Lemma findRootReference_origin_is_final_witness :
  exists o,
    Some Aliased.literal = Some o /\
    node_callee o = None /\ node_object o = None /\
    findRootReference Aliased.host 0 (Some o) = Returns (Some o).
Proof.
  exact (findRootReference_origin_is_final Aliased.host 3 Aliased.inner
           (Some Aliased.literal) eq_refl).
Defined.

(** ** Further properties of the scope lookup and of the classifier *)

Lemma find_first_match {A : Type} (p : A -> bool) (before after : list A) (x : A) :
  (forall y, In y before -> p y = false) ->
  p x = true ->
  find p (before ++ x :: after)%list = Some x.
Proof.
  intros Hbefore Hx. induction before as [|y before IH]; cbn [app find].
  - rewrite Hx. reflexivity.
  - rewrite (Hbefore y (or_introl eq_refl)). apply IH.
    intros z Hz. apply Hbefore. right. exact Hz.
Qed.

(** X4.  Only the first reference of the scope that bears the
    identifier's name is consulted: the answer is the node of the last
    definition of the variable that reference is resolved to, and absent
    when it is unresolved, whatever references of the same name follow. *)
Theorem findReference_consults_first_reference :
  forall (sourceCode : SourceCode) (loc : range) (name : string)
         (before after : list Reference) (reference : Reference),
    references (getScope sourceCode (Identifier loc name))
      = (before ++ reference :: after)%list ->
    (forall r, In r before -> node_name (identifier r) <> Some name) ->
    node_name (identifier reference) = Some name ->
    findReference sourceCode (Identifier loc name) =
      match resolved reference with
      | Some variable => option_map def_node (at_last (defs variable))
      | None => None
      end.
Proof.
  intros sourceCode loc name before after reference Hscope Hbefore Hname.
  unfold findReference. cbn [node_name]. rewrite Hscope.
  rewrite find_first_match.
  - destruct (resolved reference) as [variable|]; [|reflexivity].
    destruct (defs variable); reflexivity.
  - intros r Hr. specialize (Hbefore r Hr).
    destruct (node_name (identifier r)) as [other|]; [|reflexivity].
    cbn [same_name]. apply String.eqb_neq. congruence.
  - rewrite Hname. cbn [same_name]. apply String.eqb_refl.
Qed.

(** In [const re = /ab/; t.true(re.test(x));] the lookup of [x] passes
    the references of [re] and [t] and ends at the unresolved [x]. *)
Lemma findReference_consults_first_reference_witness :
  findReference Aliased.host Aliased.x = None.
Proof.
  apply (findReference_consults_first_reference Aliased.host (32, 33) "x"
           [ declared (Identifier (6, 8) "re") [Aliased.declarator];
             unresolved (Identifier (17, 18) "t");
             declared Aliased.re [Aliased.declarator] ]
           [] (unresolved Aliased.x) eq_refl).
  - intros r [<-|[<-|[<-|[]]]]; discriminate.
  - reflexivity.
Defined.

(** X5.  An identifier whose lookup is absent, or gives a definition
    without initializer, is its own origin, and it classifies as a regex
    exactly when its name is [RegExp]. *)
Theorem identifier_without_initializer_is_its_origin :
  forall (sourceCode : SourceCode) (fuel : nat) (loc : range) (name : string),
    match findReference sourceCode (Identifier loc name) with
    | Some definition => def_init definition
    | None => None
    end = None ->
    findRootReference sourceCode fuel (Some (Identifier loc name))
      = Returns (Some (Identifier loc name)) /\
    isRegExp sourceCode fuel (Some (Identifier loc name))
      = Returns (JSBoolean (String.eqb name "RegExp")).
Proof.
  intros sourceCode fuel loc name H.
  assert (Htrace : findRootReference sourceCode fuel (Some (Identifier loc name))
                   = Returns (Some (Identifier loc name))).
  { rewrite findRootReference_unfold. cbv zeta.
    destruct (findReference sourceCode (Identifier loc name)) as [d|]; [|reflexivity].
    rewrite H. reflexivity. }
  split; [exact Htrace|].
  unfold isRegExp. cbn [node_regex]. rewrite Htrace. reflexivity.
Qed.

(** The unresolved [x] of [const re = /ab/; t.true(re.test(x));]. *)
Lemma identifier_without_initializer_is_its_origin_witness :
  findRootReference Aliased.host 0 (Some Aliased.x) = Returns (Some Aliased.x) /\
  isRegExp Aliased.host 0 (Some Aliased.x) = Returns (JSBoolean false).
Proof.
  exact (identifier_without_initializer_is_its_origin Aliased.host 0 (32, 33) "x" eq_refl).
Defined.

(** X6.  [new RegExp(...)] and [RegExp(...)] classify as a regex,
    whatever their arguments, as long as [RegExp] itself is not given an
    initializer in scope. *)
Theorem RegExp_construction_is_regex :
  forall (sourceCode : SourceCode) (fuel : nat) (loc nameLoc : range)
         (arguments : list Node),
    match findReference sourceCode (Identifier nameLoc "RegExp") with
    | Some definition => def_init definition
    | None => None
    end = None ->
    isRegExp sourceCode (S fuel)
      (Some (NewExpression loc (Identifier nameLoc "RegExp") arguments))
      = Returns (JSBoolean true) /\
    isRegExp sourceCode (S fuel)
      (Some (CallExpression loc (Identifier nameLoc "RegExp") arguments))
      = Returns (JSBoolean true).
Proof.
  intros sourceCode fuel loc nameLoc arguments H.
  assert (Htrace : findRootReference sourceCode fuel (Some (Identifier nameLoc "RegExp"))
                   = Returns (Some (Identifier nameLoc "RegExp"))).
  { rewrite findRootReference_unfold. cbv zeta.
    destruct (findReference sourceCode (Identifier nameLoc "RegExp")) as [d|];
      [|reflexivity].
    rewrite H. reflexivity. }
  split; unfold isRegExp; cbn [node_regex];
    rewrite findRootReference_unfold; cbv beta iota zeta; rewrite Htrace; reflexivity.
Qed.

(** [new RegExp('a')] where only [t] is in scope. *)
Lemma RegExp_construction_is_regex_witness :
  isRegExp MissingArgument.host 1
    (Some (NewExpression (0, 15) (Identifier (4, 10) "RegExp")
             [Literal (11, 14) (StringLiteral "'a'")]))
    = Returns (JSBoolean true) /\
  isRegExp MissingArgument.host 1
    (Some (CallExpression (0, 15) (Identifier (4, 10) "RegExp")
             [Literal (11, 14) (StringLiteral "'a'")]))
    = Returns (JSBoolean true).
Proof.
  exact (RegExp_construction_is_regex MissingArgument.host 0 (0, 15) (4, 10)
           [Literal (11, 14) (StringLiteral "'a'")] eq_refl).
Defined.

(** X7.  The classification of a node is that of the node its tracing
    continues in: a call or a construction classifies as its callee does,
    a member access as its object, an identifier as the initializer of
    its definition. *)
Theorem isRegExp_is_inherited :
  forall (sourceCode : SourceCode) (fuel : nat) (next node : Node) (verdict : JSValue),
    nested_call sourceCode next node ->
    isRegExp sourceCode fuel (Some next) = Returns verdict ->
    exists verdict',
      isRegExp sourceCode (S fuel) (Some node) = Returns verdict' /\
      truthy verdict' = truthy verdict.
Proof.
  intros sourceCode fuel next node verdict Hcall Hnext.
  assert (Hstep : findRootReference sourceCode (S fuel) (Some node)
                  = findRootReference sourceCode fuel (Some next)).
  { rewrite findRootReference_unfold. cbv zeta.
    destruct Hcall as [loc name d init Href Hinit| | |];
      try rewrite Href, Hinit; reflexivity. }
  assert (Hplain : node_regex node = None) by (destruct Hcall; reflexivity).
  unfold isRegExp at 1. rewrite Hplain, Hstep.
  unfold isRegExp in Hnext.
  destruct (node_regex next) as [r|] eqn:Hregex.
  - injection Hnext as <-.
    rewrite findRootReference_terminal
      by (destruct next as [|? lit| | | | | |]; try discriminate Hregex; reflexivity).
    cbn [bind]. rewrite Hregex. eexists. split; reflexivity.
  - exists verdict. split; [exact Hnext|reflexivity].
Qed.

(** In [const re = /ab/; t.true(re.test(x));] the identifier [re]
    classifies as its initializer [/ab/] does. *)
Lemma isRegExp_is_inherited_witness :
  exists verdict',
    isRegExp Aliased.host 1 (Some Aliased.re) = Returns verdict' /\
    truthy verdict' = truthy (JSBoolean true).
Proof.
  exact (isRegExp_is_inherited Aliased.host 0 Aliased.literal Aliased.re (JSBoolean true)
           (nested_initializer Aliased.host (24, 26) "re" Aliased.declarator
              Aliased.literal eq_refl eq_refl)
           eq_refl).
Defined.

(** ** Further properties of the handlers and of the visitor *)

(** The end of the boolean handler, once the roles are assigned. *)
Lemma boolean_report_inversion (sourceCode : SourceCode) (fuel : nat) (node first : Node)
    (lookup variable : option Node) (findings : list Finding) :
  (verdict <- isRegExp sourceCode fuel lookup ;;
   if negb (truthy verdict) then Returns []
   else nodeCallee <- read node_callee (Some node) ;;
        nodeProperty <- read node_property nodeCallee ;;
        asserted <- read node_name nodeProperty ;;
        Returns
          [ {| finding_node := node;
               message :=
                 prefer_message
                   (if includes ["true"; "truthy"] asserted then "regex" else "notRegex");
               finding_fix :=
                 e1 <- fixer_replaceText nodeProperty
                         (if includes ["true"; "truthy"] asserted
                          then "regex" else "notRegex") ;;
                 e2 <- fixer_replaceText (Some first)
                         (getText sourceCode variable ++ ", "
                          ++ getText sourceCode lookup) ;;
                 Returns [e1; e2] |} ]) = Returns findings ->
  findings = [] \/
  exists verdict nodeCallee nodeProperty assertion,
    isRegExp sourceCode fuel lookup = Returns verdict /\
    truthy verdict = true /\
    node_callee node = Some nodeCallee /\
    node_property nodeCallee = Some nodeProperty /\
    assertion = (if includes ["true"; "truthy"] (node_name nodeProperty)
                 then "regex" else "notRegex") /\
    findings =
      [ {| finding_node := node;
           message := prefer_message assertion;
           finding_fix :=
             Returns
               [ replaceText nodeProperty assertion;
                 replaceText first
                   (getText sourceCode variable ++ ", " ++ getText sourceCode lookup) ] |} ].
Proof.
  intros Hrun.
  destruct (isRegExp sourceCode fuel lookup) as [verdict| |] eqn:Hverdict;
    cbn [bind] in Hrun; try discriminate Hrun.
  destruct (truthy verdict) eqn:Htruthy; cbn [negb] in Hrun;
    [|injection Hrun as <-; left; reflexivity].
  cbn [read bind] in Hrun.
  destruct (node_callee node) as [nodeCallee|] eqn:HnodeCallee;
    cbn [read bind] in Hrun; [|discriminate Hrun].
  destruct (node_property nodeCallee) as [nodeProperty|] eqn:HnodeProperty;
    cbn [read bind fixer_replaceText] in Hrun; [|discriminate Hrun].
  injection Hrun as <-. right.
  exists verdict, nodeCallee, nodeProperty. eexists.
  repeat (split; [first [assumption | reflexivity]|]). reflexivity.
Qed.

(** All the boolean handler can return: nothing, or one finding on a
    regex test. *)
Lemma booleanHandler_inversion (sourceCode : SourceCode) (fuel : nat) (node : Node)
    (findings : list Finding) :
  booleanHandler sourceCode fuel node = Returns findings ->
  findings = [] \/
  exists arguments loc callee innerArguments property method lookup variable verdict
         nodeCallee nodeProperty assertion,
    node_arguments node = Some arguments /\
    item 0 arguments = Some (CallExpression loc callee innerArguments) /\
    node_property callee = Some property /\
    node_name property = Some method /\
    ((method = "test" /\ lookup = node_object callee /\ variable = item 0 innerArguments) \/
     ((method = "search" \/ method = "match") /\
      lookup = item 0 innerArguments /\ variable = node_object callee)) /\
    isRegExp sourceCode fuel lookup = Returns verdict /\
    truthy verdict = true /\
    node_callee node = Some nodeCallee /\
    node_property nodeCallee = Some nodeProperty /\
    assertion = (if includes ["true"; "truthy"] (node_name nodeProperty)
                 then "regex" else "notRegex") /\
    findings =
      [ {| finding_node := node;
           message := prefer_message assertion;
           finding_fix :=
             Returns
               [ replaceText nodeProperty assertion;
                 replaceText (CallExpression loc callee innerArguments)
                   (getText sourceCode variable ++ ", " ++ getText sourceCode lookup) ] |} ].
Proof.
  intros H. unfold booleanHandler in H. cbn [read bind] in H.
  destruct (node_arguments node) as [arguments|] eqn:Harguments;
    cbn [read bind] in H; [|discriminate H].
  destruct (item 0 arguments) as [first|] eqn:Hfirst;
    [|injection H as <-; left; reflexivity].
  destruct (same_name (node_type first) (Some "CallExpression")) eqn:Htype;
    cbn [negb] in H; [|injection H as <-; left; reflexivity].
  destruct (call_type_is_call first Htype) as [loc [callee [innerArguments ->]]].
  cbn [read bind node_callee node_arguments] in H.
  destruct (node_property callee) as [property|] eqn:Hproperty;
    [|injection H as <-; left; reflexivity].
  cbn [read bind] in H.
  destruct (node_name property) as [method|] eqn:Hmethod; cbn [same_name] in H.
  - destruct (String.eqb method "test") eqn:Htest.
    + apply String.eqb_eq in Htest. cbn [bind fst snd] in H.
      destruct (boolean_report_inversion sourceCode fuel node
                  (CallExpression loc callee innerArguments)
                  (node_object callee) (item 0 innerArguments) findings H)
        as [->|[verdict [nodeCallee [nodeProperty [assertion
              [Hverdict [Htruthy [HnodeCallee [HnodeProperty [Hassertion ->]]]]]]]]]];
        [left; reflexivity|right].
      exists arguments, loc, callee, innerArguments, property, method,
             (node_object callee), (item 0 innerArguments),
             verdict, nodeCallee, nodeProperty, assertion.
      repeat (split; [first [assumption | reflexivity]|]).
      split; [left; repeat split; assumption|].
      repeat (split; [first [assumption | reflexivity]|]). reflexivity.
    + unfold includes in H. cbn [existsb same_name] in H.
      destruct (String.eqb "search" method || (String.eqb "match" method || false))
        eqn:Hother.
      * cbn [bind fst snd] in H.
        destruct (boolean_report_inversion sourceCode fuel node
                    (CallExpression loc callee innerArguments)
                    (item 0 innerArguments) (node_object callee) findings H)
          as [->|[verdict [nodeCallee [nodeProperty [assertion
                [Hverdict [Htruthy [HnodeCallee [HnodeProperty [Hassertion ->]]]]]]]]]];
          [left; reflexivity|right].
        exists arguments, loc, callee, innerArguments, property, method,
               (item 0 innerArguments), (node_object callee),
               verdict, nodeCallee, nodeProperty, assertion.
        repeat (split; [first [assumption | reflexivity]|]).
        split.
        { right. repeat split; try reflexivity.
          apply orb_true_iff in Hother. destruct Hother as [Hsearch|Hmatch].
          - left. apply String.eqb_eq in Hsearch. congruence.
          - rewrite orb_false_r in Hmatch. right.
            apply String.eqb_eq in Hmatch. congruence. }
        repeat (split; [first [assumption | reflexivity]|]). reflexivity.
      * cbn [bind fst snd] in H. rewrite isRegExp_PlainObject in H.
        injection H as <-. left. reflexivity.
  - unfold includes in H. cbn [existsb same_name orb bind fst snd] in H.
    rewrite isRegExp_PlainObject in H. injection H as <-. left. reflexivity.
Qed.

(** X8.  The boolean handler reports at most once, and only when the
    first argument of the assertion is a call whose callee has a property
    named [test], [match] or [search] and the lookup of that call (the
    callee object for [test], the first call argument for the other two)
    classifies as a regex. *)
Theorem booleanHandler_reports_only_regex_tests :
  forall (sourceCode : SourceCode) (fuel : nat) (node : Node)
         (finding : Finding) (rest : list Finding),
    booleanHandler sourceCode fuel node = Returns (finding :: rest) ->
    rest = [] /\
    exists arguments loc callee innerArguments property method lookup verdict,
      node_arguments node = Some arguments /\
      item 0 arguments = Some (CallExpression loc callee innerArguments) /\
      node_property callee = Some property /\
      node_name property = Some method /\
      ((method = "test" /\ lookup = node_object callee) \/
       ((method = "search" \/ method = "match") /\ lookup = item 0 innerArguments)) /\
      isRegExp sourceCode fuel lookup = Returns verdict /\
      truthy verdict = true.
Proof.
  intros sourceCode fuel node finding rest H.
  destruct (booleanHandler_inversion sourceCode fuel node _ H) as [Hnone|Hone];
    [discriminate Hnone|].
  destruct Hone as (arguments & loc & callee & innerArguments & property & method
                    & lookup & variable & verdict & nodeCallee & nodeProperty & assertion
                    & Harguments & Hfirst & Hproperty & Hmethod & Hroles & Hverdict
                    & Htruthy & _ & _ & _ & Hfindings).
  split; [congruence|].
  exists arguments, loc, callee, innerArguments, property, method, lookup, verdict.
  repeat (split; [assumption|]). split; [|split; assumption].
  destruct Hroles as [[Htest [Hlookup _]]|[Hother [Hlookup _]]];
    [left|right]; split; assumption.
Qed.

(** [const re = /ab/; t.true(re.test(x));]: the finding comes from the
    [test] call on [re]. *)
Lemma booleanHandler_reports_only_regex_tests_witness :
  [] = @nil Finding /\
  exists arguments loc callee innerArguments property method lookup verdict,
    node_arguments Aliased.call = Some arguments /\
    item 0 arguments = Some (CallExpression loc callee innerArguments) /\
    node_property callee = Some property /\
    node_name property = Some method /\
    ((method = "test" /\ lookup = node_object callee) \/
     ((method = "search" \/ method = "match") /\ lookup = item 0 innerArguments)) /\
    isRegExp Aliased.host 1 lookup = Returns verdict /\
    truthy verdict = true.
Proof.
  exact (booleanHandler_reports_only_regex_tests Aliased.host 1 Aliased.call
           {| finding_node := Aliased.call;
              message := "Prefer using the `t.regex()` assertion.";
              finding_fix :=
                Returns [ replaceText Aliased.asserted "regex";
                          replaceText Aliased.inner "x, re" ] |}
           [] eq_refl).
Defined.

(** X9.  The fix of a finding of the boolean handler never throws: it is
    two edits, the first renames the property of the assertion's callee
    to [regex] (for [true] and [truthy]) or [notRegex] (otherwise), the
    second replaces the whole first argument; the finding is located at
    the assertion. *)
Theorem booleanHandler_fix_is_two_edits :
  forall (sourceCode : SourceCode) (fuel : nat) (node : Node)
         (finding : Finding) (rest : list Finding),
    booleanHandler sourceCode fuel node = Returns (finding :: rest) ->
    exists arguments first nodeCallee nodeProperty assertion text,
      node_arguments node = Some arguments /\
      item 0 arguments = Some first /\
      node_callee node = Some nodeCallee /\
      node_property nodeCallee = Some nodeProperty /\
      assertion = (if includes ["true"; "truthy"] (node_name nodeProperty)
                   then "regex" else "notRegex") /\
      finding =
        {| finding_node := node;
           message := prefer_message assertion;
           finding_fix :=
             Returns [ replaceText nodeProperty assertion; replaceText first text ] |}.
Proof.
  intros sourceCode fuel node finding rest H.
  destruct (booleanHandler_inversion sourceCode fuel node _ H) as [Hnone|Hone];
    [discriminate Hnone|].
  destruct Hone as (arguments & loc & callee & innerArguments & property & method
                    & lookup & variable & verdict & nodeCallee & nodeProperty & assertion
                    & Harguments & Hfirst & _ & _ & _ & _ & _
                    & HnodeCallee & HnodeProperty & Hassertion & Hfindings).
  injection Hfindings as -> _.
  exists arguments, (CallExpression loc callee innerArguments), nodeCallee, nodeProperty,
         assertion.
  eexists. repeat (split; [assumption|]). reflexivity.
Qed.

(** [t.falsy(s.search(/a+/));]: [falsy] is renamed to [notRegex] and
    the inner call is replaced. *)
Lemma booleanHandler_fix_is_two_edits_witness :
  exists arguments first nodeCallee nodeProperty assertion text,
    node_arguments Searched.call = Some arguments /\
    item 0 arguments = Some first /\
    node_callee Searched.call = Some nodeCallee /\
    node_property nodeCallee = Some nodeProperty /\
    assertion = (if includes ["true"; "truthy"] (node_name nodeProperty)
                 then "regex" else "notRegex") /\
    {| finding_node := Searched.call;
       message := "Prefer using the `t.notRegex()` assertion.";
       finding_fix :=
         Returns [ replaceText Searched.asserted "notRegex";
                   replaceText Searched.inner "s, /a+/" ] |} =
      {| finding_node := Searched.call;
         message := prefer_message assertion;
         finding_fix :=
           Returns [ replaceText nodeProperty assertion; replaceText first text ] |}.
Proof.
  exact (booleanHandler_fix_is_two_edits Searched.host 0 Searched.call
           {| finding_node := Searched.call;
              message := "Prefer using the `t.notRegex()` assertion.";
              finding_fix :=
                Returns [ replaceText Searched.asserted "notRegex";
                          replaceText Searched.inner "s, /a+/" ] |}
           [] eq_refl).
Defined.

Lemma same_name_true (a : option string) (s : string) :
  same_name a (Some s) = true -> a = Some s.
Proof.
  destruct a as [x|]; cbn [same_name]; [|discriminate].
  intros H. apply String.eqb_eq in H. congruence.
Qed.

Lemma includes_true (names : list string) (a : option string) :
  includes names a = true -> exists name, a = Some name /\ In name names.
Proof.
  unfold includes. intros H. apply existsb_exists in H.
  destruct H as [s [Hin Hsame]].
  destruct a as [x|]; cbn [same_name] in Hsame; [|discriminate Hsame].
  apply String.eqb_eq in Hsame. subst x. exists s. split; [reflexivity|exact Hin].
Qed.

(** All the equality handler can return: nothing, or one finding. *)
Lemma equalityHandler_inversion (sourceCode : SourceCode) (fuel : nat) (node : Node)
    (findings : list Finding) :
  equalityHandler sourceCode fuel node = Returns findings ->
  findings = [] \/
  exists assertion edits,
    (assertion = "regex" \/ assertion = "notRegex") /\
    findings = [ {| finding_node := node;
                    message := prefer_message assertion;
                    finding_fix := edits |} ].
Proof.
  intros H. unfold equalityHandler in H. cbn [read bind] in H.
  destruct (node_arguments node) as [arguments|]; cbn [read bind] in H;
    [|discriminate H].
  destruct (isRegExp sourceCode fuel (item 0 arguments)) as [first| |];
    cbn [bind] in H; try discriminate H.
  destruct (isRegExp sourceCode fuel (item 1 arguments)) as [second| |];
    cbn [bind] in H; try discriminate H.
  destruct (strict_equal first second); [injection H as <-; left; reflexivity|].
  destruct (if truthy second then item 0 arguments else item 1 arguments) as [matchee|];
    [|injection H as <-; left; reflexivity].
  destruct (if truthy second then item 1 arguments else item 0 arguments);
    [|injection H as <-; left; reflexivity].
  cbn [read bind] in H.
  destruct (same_name (node_type matchee) (Some "Literal"));
    [|injection H as <-; left; reflexivity].
  destruct (same_name (node_raw matchee) (Some "true")).
  { injection H as <-. right. eexists _, _. split; [left; reflexivity|reflexivity]. }
  destruct (same_name (node_raw matchee) (Some "false")).
  { injection H as <-. right. eexists _, _. split; [right; reflexivity|reflexivity]. }
  injection H as <-. left. reflexivity.
Qed.

(** X10.  A visit of a call expression reports at most one finding; the
    finding is located at the visited call and its message is one of
    "Prefer using the `t.regex()` assertion." and "Prefer using the
    `t.notRegex()` assertion.". *)
Theorem onCallExpression_reports_at_most_once :
  forall (sourceCode : SourceCode) (isInTestFile isInTestNode : Node -> bool)
         (getNameOfRootNodeObject : Node -> option string) (fuel : nat) (node : Node)
         (findings : list Finding),
    onCallExpression sourceCode isInTestFile isInTestNode getNameOfRootNodeObject fuel node
      = Returns findings ->
    findings = [] \/
    exists assertion edits,
      (assertion = "regex" \/ assertion = "notRegex") /\
      findings = [ {| finding_node := node;
                      message := prefer_message assertion;
                      finding_fix := edits |} ].
Proof.
  intros sourceCode isInTestFile isInTestNode getNameOfRootNodeObject fuel node findings H.
  unfold onCallExpression in H.
  destruct (negb _); [injection H as <-; left; reflexivity|].
  destruct (node_callee node) as [callee|]; [|injection H as <-; left; reflexivity].
  destruct (node_property callee) as [property|];
    [|injection H as <-; left; reflexivity].
  cbv zeta in H.
  destruct (_ && includes booleanTests _).
  - destruct (booleanHandler_inversion sourceCode fuel node findings H) as [Hnone|Hone];
      [left; exact Hnone|right].
    destruct Hone as (arguments & loc & innerCallee & innerArguments & innerProperty
                      & method & lookup & variable & verdict & nodeCallee & nodeProperty
                      & assertion & _ & _ & _ & _ & _ & _ & _ & _ & _
                      & Hassertion & Hfindings).
    exists assertion. eexists. split; [|exact Hfindings].
    rewrite Hassertion. destruct (includes _ _); [left|right]; reflexivity.
  - destruct (_ && includes equalityTests _).
    + exact (equalityHandler_inversion sourceCode fuel node findings H).
    + injection H as <-. left. reflexivity.
Qed.

(** [const re = /ab/; t.true(re.test(x));] gives one finding. *)
Lemma onCallExpression_reports_at_most_once_witness :
  [ {| finding_node := Aliased.call;
       message := "Prefer using the `t.regex()` assertion.";
       finding_fix :=
         Returns [ replaceText Aliased.asserted "regex";
                   replaceText Aliased.inner "x, re" ] |} ] = [] \/
  exists assertion edits,
    (assertion = "regex" \/ assertion = "notRegex") /\
    [ {| finding_node := Aliased.call;
         message := "Prefer using the `t.regex()` assertion.";
         finding_fix :=
           Returns [ replaceText Aliased.asserted "regex";
                     replaceText Aliased.inner "x, re" ] |} ]
    = [ {| finding_node := Aliased.call;
           message := prefer_message assertion;
           finding_fix := edits |} ].
Proof.
  exact (onCallExpression_reports_at_most_once Aliased.host inTest inTest rootObjectName 1
           Aliased.call _ eq_refl).
Defined.

(** X11.  The visitor reports only on a call that passes both gates of
    the plugin and whose callee is a member expression with root object
    [t] and a property named as one of the six assertions [true],
    [false], [truthy], [falsy], [is] and [deepEqual]. *)
Theorem onCallExpression_reports_only_on_assertions :
  forall (sourceCode : SourceCode) (isInTestFile isInTestNode : Node -> bool)
         (getNameOfRootNodeObject : Node -> option string) (fuel : nat) (node : Node)
         (finding : Finding) (rest : list Finding),
    onCallExpression sourceCode isInTestFile isInTestNode getNameOfRootNodeObject fuel node
      = Returns (finding :: rest) ->
    isInTestFile node = true /\
    isInTestNode node = true /\
    exists callee property name,
      node_callee node = Some callee /\
      node_type callee = Some "MemberExpression" /\
      getNameOfRootNodeObject callee = Some "t" /\
      node_property callee = Some property /\
      node_name property = Some name /\
      (In name booleanTests \/ In name equalityTests).
Proof.
  intros sourceCode isInTestFile isInTestNode getNameOfRootNodeObject fuel node
         finding rest H.
  unfold onCallExpression in H.
  destruct (isInTestFile node); [|discriminate H].
  destruct (isInTestNode node); [|discriminate H].
  cbn [andb negb] in H.
  split; [reflexivity|]. split; [reflexivity|].
  destruct (node_callee node) as [callee|] eqn:Hcallee; [|discriminate H].
  destruct (node_property callee) as [property|] eqn:Hproperty; [|discriminate H].
  cbv zeta in H.
  destruct (same_name (node_type callee) (Some "MemberExpression")) eqn:Htype;
    [|discriminate H].
  destruct (same_name (getNameOfRootNodeObject callee) (Some "t")) eqn:Hroot;
    [|discriminate H].
  cbn [andb] in H.
  apply same_name_true in Htype, Hroot.
  destruct (includes booleanTests (node_name property)) eqn:Hboolean.
  - destruct (includes_true _ _ Hboolean) as [name [Hname Hin]].
    exists callee, property, name. repeat (split; [first [assumption|reflexivity]|]).
    left. exact Hin.
  - destruct (includes equalityTests (node_name property)) eqn:Hequality;
      [|discriminate H].
    destruct (includes_true _ _ Hequality) as [name [Hname Hin]].
    exists callee, property, name. repeat (split; [first [assumption|reflexivity]|]).
    right. exact Hin.
Qed.

(** [t.is(/a/.test(s), false);] passes the gates and asserts on [t.is]. *)
Lemma onCallExpression_reports_only_on_assertions_witness :
  inTest TestedEquality.call = true /\
  inTest TestedEquality.call = true /\
  exists callee property name,
    node_callee TestedEquality.call = Some callee /\
    node_type callee = Some "MemberExpression" /\
    rootObjectName callee = Some "t" /\
    node_property callee = Some property /\
    node_name property = Some name /\
    (In name booleanTests \/ In name equalityTests).
Proof.
  exact (onCallExpression_reports_only_on_assertions TestedEquality.host inTest inTest
           rootObjectName 2 TestedEquality.call
           {| finding_node := TestedEquality.call;
              message := "Prefer using the `t.notRegex()` assertion.";
              finding_fix :=
                Returns [ replaceText TestedEquality.asserted "notRegex";
                          replaceText TestedEquality.tested "s";
                          replaceText TestedEquality.matchee "/a/" ] |}
           [] eq_refl).
Defined.

(** [t.is(/a/.test(s), false);] is reported: [/a/.test(s)] classifies
    as a regex and the other side is the literal [false]. *)
Lemma equalityHandler_reports_only_on_boolean_text_witness :
  exists first second,
    isRegExp TestedEquality.host 2 (Some TestedEquality.tested) = Returns first /\
    isRegExp TestedEquality.host 2 (Some TestedEquality.matchee) = Returns second /\
    truthy first = negb (truthy second) /\
    node_type (if truthy second then TestedEquality.tested else TestedEquality.matchee)
      = Some "Literal" /\
    (node_raw (if truthy second then TestedEquality.tested else TestedEquality.matchee)
       = Some "true" \/
     node_raw (if truthy second then TestedEquality.tested else TestedEquality.matchee)
       = Some "false").
Proof.
  exact (equalityHandler_reports_only_on_boolean_text TestedEquality.host 2
           (0, 24) (0, 4) (2, 4) (Identifier (0, 1) "t")
           TestedEquality.tested TestedEquality.matchee "is" []
           {| finding_node := TestedEquality.call;
              message := "Prefer using the `t.notRegex()` assertion.";
              finding_fix :=
                Returns [ replaceText TestedEquality.asserted "notRegex";
                          replaceText TestedEquality.tested "s";
                          replaceText TestedEquality.matchee "/a/" ] |}
           [] eq_refl).
Defined.

Lemma isRegExp_boolean_literal (sourceCode : SourceCode) (fuel : nat) (loc : range)
    (value : bool) :
  isRegExp sourceCode fuel (Some (Literal loc (BooleanLiteral value)))
  = Returns (JSBoolean false).
Proof.
  unfold isRegExp. cbn [node_regex].
  rewrite findRootReference_terminal by reflexivity. reflexivity.
Qed.

Lemma truthy_differs_from_false (verdict : JSValue) :
  truthy verdict = true ->
  strict_equal verdict (JSBoolean false) = false /\
  strict_equal (JSBoolean false) verdict = false.
Proof.
  destruct verdict as [[|]|r]; intros H; try discriminate H; split; reflexivity.
Qed.

Lemma equality_dispatch (sourceCode : SourceCode)
    (isInTestFile isInTestNode : Node -> bool)
    (getNameOfRootNodeObject : Node -> option string) (fuel : nat)
    (l0 l1 l2 : range) (tObject : Node) (asserted : string) (arguments : list Node) :
  isInTestFile (method_call l0 l1 l2 tObject asserted arguments) = true ->
  isInTestNode (method_call l0 l1 l2 tObject asserted arguments) = true ->
  getNameOfRootNodeObject (MemberExpression l1 tObject (Identifier l2 asserted) false)
    = Some "t" ->
  In asserted equalityTests ->
  onCallExpression sourceCode isInTestFile isInTestNode getNameOfRootNodeObject fuel
    (method_call l0 l1 l2 tObject asserted arguments)
  = equalityHandler sourceCode fuel (method_call l0 l1 l2 tObject asserted arguments).
Proof.
  intros Hfile Hnode Hroot Hasserted.
  rewrite onCallExpression_method_call. cbv zeta.
  rewrite Hfile, Hnode, Hroot. cbn [andb negb same_name].
  change (String.eqb "t" "t") with true. cbn [negb].
  destruct Hasserted as [<-|[<-|[]]]; reflexivity.
Qed.

(** X14.  For every visited [t.is(r.test(s), true)], and the same with
    [false] or with [t.deepEqual], where the test call classifies as a
    regex, the rule reports one finding whose fix renames the assertion
    to [regex] (for [true]) or [notRegex] (for [false]), replaces the
    first argument with the text of [s] and the second with the text of
    [r]. *)
Theorem equality_test_is_rewritten :
  forall (sourceCode : SourceCode) (isInTestFile isInTestNode : Node -> bool)
         (getNameOfRootNodeObject : Node -> option string) (fuel : nat)
         (l0 l1 l2 l3 l4 l5 l6 : range) (tObject r s : Node) (asserted : string)
         (value : bool) (others more : list Node) (verdict : JSValue),
    isInTestFile
      (method_call l0 l1 l2 tObject asserted
         (method_call l3 l4 l5 r "test" (s :: others)
          :: Literal l6 (BooleanLiteral value) :: more)) = true ->
    isInTestNode
      (method_call l0 l1 l2 tObject asserted
         (method_call l3 l4 l5 r "test" (s :: others)
          :: Literal l6 (BooleanLiteral value) :: more)) = true ->
    getNameOfRootNodeObject (MemberExpression l1 tObject (Identifier l2 asserted) false)
      = Some "t" ->
    In asserted equalityTests ->
    isRegExp sourceCode fuel (Some (method_call l3 l4 l5 r "test" (s :: others)))
      = Returns verdict ->
    truthy verdict = true ->
    onCallExpression sourceCode isInTestFile isInTestNode getNameOfRootNodeObject fuel
      (method_call l0 l1 l2 tObject asserted
         (method_call l3 l4 l5 r "test" (s :: others)
          :: Literal l6 (BooleanLiteral value) :: more))
    = Returns
        [ {| finding_node :=
               method_call l0 l1 l2 tObject asserted
                 (method_call l3 l4 l5 r "test" (s :: others)
                  :: Literal l6 (BooleanLiteral value) :: more);
             message := prefer_message (if value then "regex" else "notRegex");
             finding_fix :=
               Returns
                 [ replaceText (Identifier l2 asserted)
                     (if value then "regex" else "notRegex");
                   replaceText (method_call l3 l4 l5 r "test" (s :: others))
                     (getText sourceCode (Some s));
                   replaceText (Literal l6 (BooleanLiteral value))
                     (getText sourceCode (Some r)) ] |} ].
Proof.
  intros sourceCode isInTestFile isInTestNode getNameOfRootNodeObject fuel
         l0 l1 l2 l3 l4 l5 l6 tObject r s asserted value others more verdict
         Hfile Hnode Hroot Hasserted Hverdict Htruthy.
  rewrite (equality_dispatch sourceCode isInTestFile isInTestNode getNameOfRootNodeObject
             fuel l0 l1 l2 tObject asserted _ Hfile Hnode Hroot Hasserted).
  unfold equalityHandler.
  unfold method_call at 1. cbn [read node_arguments bind item nth_error].
  rewrite Hverdict, isRegExp_boolean_literal. cbn [bind].
  destruct (truthy_differs_from_false verdict Htruthy) as [-> _].
  cbn [truthy]. destruct value; reflexivity.
Qed.

(** [t.is(/a/.test(s), false);] becomes [t.notRegex(s, /a/);]. *)
Lemma equality_test_is_rewritten_witness :
  onCallExpression TestedEquality.host inTest inTest rootObjectName 2 TestedEquality.call
  = Returns
      [ {| finding_node := TestedEquality.call;
           message := "Prefer using the `t.notRegex()` assertion.";
           finding_fix :=
             Returns [ replaceText TestedEquality.asserted "notRegex";
                       replaceText TestedEquality.tested "s";
                       replaceText TestedEquality.matchee "/a/" ] |} ].
Proof.
  exact (equality_test_is_rewritten TestedEquality.host inTest inTest rootObjectName 2
           (0, 24) (0, 4) (2, 4) (5, 16) (5, 13) (9, 13) (18, 23)
           (Identifier (0, 1) "t") TestedEquality.literal TestedEquality.subject
           "is" false [] [] (JSRegex (mkRegex (5, 8) "a" ""))
           eq_refl eq_refl eq_refl (or_introl eq_refl) eq_refl eq_refl).
Defined.

(** X15.  With the literal first, [t.is(true, r.test(s))], the same
    finding is reported and the fix is again by position: the first
    argument (the literal) takes the text of [s], the second (the test
    call) the text of [r]. *)
Theorem equality_test_after_literal_is_rewritten :
  forall (sourceCode : SourceCode) (isInTestFile isInTestNode : Node -> bool)
         (getNameOfRootNodeObject : Node -> option string) (fuel : nat)
         (l0 l1 l2 l3 l4 l5 l6 : range) (tObject r s : Node) (asserted : string)
         (value : bool) (others more : list Node) (verdict : JSValue),
    isInTestFile
      (method_call l0 l1 l2 tObject asserted
         (Literal l6 (BooleanLiteral value)
          :: method_call l3 l4 l5 r "test" (s :: others) :: more)) = true ->
    isInTestNode
      (method_call l0 l1 l2 tObject asserted
         (Literal l6 (BooleanLiteral value)
          :: method_call l3 l4 l5 r "test" (s :: others) :: more)) = true ->
    getNameOfRootNodeObject (MemberExpression l1 tObject (Identifier l2 asserted) false)
      = Some "t" ->
    In asserted equalityTests ->
    isRegExp sourceCode fuel (Some (method_call l3 l4 l5 r "test" (s :: others)))
      = Returns verdict ->
    truthy verdict = true ->
    onCallExpression sourceCode isInTestFile isInTestNode getNameOfRootNodeObject fuel
      (method_call l0 l1 l2 tObject asserted
         (Literal l6 (BooleanLiteral value)
          :: method_call l3 l4 l5 r "test" (s :: others) :: more))
    = Returns
        [ {| finding_node :=
               method_call l0 l1 l2 tObject asserted
                 (Literal l6 (BooleanLiteral value)
                  :: method_call l3 l4 l5 r "test" (s :: others) :: more);
             message := prefer_message (if value then "regex" else "notRegex");
             finding_fix :=
               Returns
                 [ replaceText (Identifier l2 asserted)
                     (if value then "regex" else "notRegex");
                   replaceText (Literal l6 (BooleanLiteral value))
                     (getText sourceCode (Some s));
                   replaceText (method_call l3 l4 l5 r "test" (s :: others))
                     (getText sourceCode (Some r)) ] |} ].
Proof.
  intros sourceCode isInTestFile isInTestNode getNameOfRootNodeObject fuel
         l0 l1 l2 l3 l4 l5 l6 tObject r s asserted value others more verdict
         Hfile Hnode Hroot Hasserted Hverdict Htruthy.
  rewrite (equality_dispatch sourceCode isInTestFile isInTestNode getNameOfRootNodeObject
             fuel l0 l1 l2 tObject asserted _ Hfile Hnode Hroot Hasserted).
  unfold equalityHandler.
  unfold method_call at 1. cbn [read node_arguments bind item nth_error].
  rewrite Hverdict, isRegExp_boolean_literal. cbn [bind].
  destruct (truthy_differs_from_false verdict Htruthy) as [_ ->].
  rewrite Htruthy. destruct value; reflexivity.
Qed.

(** [t.is(true, /a/.test(s));] becomes [t.regex(s, /a/);]. *)
Lemma equality_test_after_literal_is_rewritten_witness :
  onCallExpression LiteralFirst.host inTest inTest rootObjectName 2 LiteralFirst.call
  = Returns
      [ {| finding_node := LiteralFirst.call;
           message := "Prefer using the `t.regex()` assertion.";
           finding_fix :=
             Returns [ replaceText LiteralFirst.asserted "regex";
                       replaceText LiteralFirst.matchee "s";
                       replaceText LiteralFirst.tested "/a/" ] |} ].
Proof.
  exact (equality_test_after_literal_is_rewritten LiteralFirst.host inTest inTest
           rootObjectName 2
           (0, 23) (0, 4) (2, 4) (11, 22) (11, 19) (15, 19) (5, 9)
           (Identifier (0, 1) "t") LiteralFirst.literal LiteralFirst.subject
           "is" true [] [] (JSRegex (mkRegex (11, 14) "a" ""))
           eq_refl eq_refl eq_refl (or_introl eq_refl) eq_refl eq_refl).
Defined.

(** X16.  An assertion with too few arguments is never reported: both
    handlers return nothing on [t.asserted()], and the equality handler
    returns nothing on a single argument as soon as the classification
    of that argument returns. *)
Theorem too_few_arguments_are_not_reported :
  forall (sourceCode : SourceCode) (fuel : nat) (l0 l1 l2 : range) (tObject a : Node)
         (asserted : string),
    booleanHandler sourceCode fuel (method_call l0 l1 l2 tObject asserted []) = Returns [] /\
    equalityHandler sourceCode fuel (method_call l0 l1 l2 tObject asserted []) = Returns [] /\
    equalityHandler sourceCode fuel (method_call l0 l1 l2 tObject asserted [a])
      = (verdict <- isRegExp sourceCode fuel (Some a) ;; Returns []).
Proof.
  intros sourceCode fuel l0 l1 l2 tObject a asserted.
  split; [reflexivity|]. split; [reflexivity|].
  unfold equalityHandler, method_call.
  cbn [read node_arguments bind item nth_error isRegExp].
  destruct (match node_regex a with
            | Some _ => _
            | None => _
            end) as [[[|]|rx]| |]; reflexivity.
Qed.

(** ** Fuel *)






